(** * Equivalent-circuit lithium-ion cell simulator

    A shallow embedding of [isaac_battery_model.c]: the calibration tables,
    the bilinear interpolation, the parameter lookup, and the electrical and
    thermal state updates, followed by the properties of the specification
    that were checked against them.

    Number model.  A C [float] is modelled by an exact rational in canonical
    form ([Qc]), so that equality of model values is Leibniz equality and
    every definition evaluates.  This is the real-number reading of the
    simulator: rounding, infinities and NaN of IEEE-754 are outside the
    model, and a quotient by zero (which the C code would turn into an
    infinity or a NaN) has the value 0 here, as everywhere in [Qc].
    A statement that compares or simplifies a quotient therefore carries the
    hypothesis that its divisor is not zero (one that only writes down the
    expression the code evaluates does not need it), and the electrical and
    the thermal step have a second embedding,
    [battery_model_electrical_checked] and [battery_model_thermal_checked],
    in which every division is checked and a zero divisor is the explicit
    result [UB DivisionByZero]; it shows where the steps leave the numbers.
    A C [int] is modelled by [Z]; the two places where the C program leaves
    the defined behaviour of the language (a table read outside its
    dimensions, a float-to-int conversion outside the range of [int]) are
    explicit results [UB _] of the model. *)

From Stdlib Require Import ZArith QArith Qcanon Qcabs Qround Qabs Lqa Lia List Bool.
Import ListNotations.

(** ** Results of C computations *)

Inductive fault : Type :=
| OutOfBounds   (* an array read outside the declared dimensions *)
| CastRange     (* (int)x with the integral part of x outside [int] *)
| DivisionByZero. (* x / 0: undefined in ISO C, an infinity or a NaN under
                     IEEE 754; no number either way *)

Inductive outcome (A : Type) : Type :=
| Ok (a : A)
| UB (f : fault).

Arguments Ok {A} a.
Arguments UB {A} f.

Class Monad (M : Type -> Type) : Type := {
  ret  : forall {A : Type}, A -> M A;
  bind : forall {A B : Type}, M A -> (A -> M B) -> M B
}.

Declare Scope monad_scope.
Delimit Scope monad_scope with monad.
Notation "x <- c ;; k" := (bind c (fun x => k))
  (at level 61, c at next level, right associativity) : monad_scope.
Notation "' pat <- c ;; k" := (bind c (fun x => match x with pat => k end))
  (at level 61, pat pattern, c at next level, right associativity)
  : monad_scope.
Notation "c ;;; k" := (bind c (fun _ => k))
  (at level 61, right associativity) : monad_scope.

#[global] Instance outcome_Monad : Monad outcome := {
  ret := fun A a => Ok a;
  bind := fun A B c k => match c with Ok a => k a | UB f => UB f end
}.

(** ** Numbers *)

Abbreviation float := Qc (only parsing).

(** A decimal literal of the source. *)
Definition lit (q : Q) : float := Q2Qc q.

(** The implicit conversion of an [int] operand in float arithmetic. *)
Definition int_to_float (z : Z) : float := Q2Qc (inject_Z z).

Definition INT_MIN : Z := - 2 ^ 31.
Definition INT_MAX : Z := 2 ^ 31 - 1.

(** The integral part of a float, discarding the fraction (towards zero). *)
Definition truncate (x : float) : Z := Z.quot (Qnum x) (Zpos (Qden x)).

(** The cast [(int)x]. *)
Definition float_to_int (x : float) : outcome Z :=
  let z := truncate x in
  if (INT_MIN <=? z)%Z && (z <=? INT_MAX)%Z then Ok z else UB CastRange.

(** The comparison [x <= y] on floats. *)
Definition fle (x y : float) : bool := Qle_bool x y.

(** The quotient [x / y] with the divisor checked. *)
Definition fdiv (x y : float) : outcome float :=
  if Qeq_bool y 0 then UB DivisionByZero else Ok (Qcdiv x y).

Open Scope Qc_scope.

(** ** Data model *)

Record battery_model : Type := {
  capacityAs : float;  (* fully charged capacity, amp-seconds *)
  SOC : float;         (* state of charge *)
  C1Q : float;         (* charge borrowed from the capacitor C1 *)
  cellT : float        (* temperature of the interior of the cells *)
}.

Record battery_model_parameters : Type := {
  Em : float;  (* open circuit voltage *)
  R0 : float;  (* series output resistance *)
  R1 : float;  (* short term deep draw resistance *)
  C1 : float   (* short term capacitance *)
}.

Definition battery_model_table_SOCs : Z := 11.
Definition battery_model_table_temps : Z := 4.

(** [values[battery_model_table_temps][battery_model_table_SOCs]], one row
    per temperature. *)
Record battery_model_table : Type := {
  values : list (list float)
}.

Definition table_of (rows : list (list Q)) : battery_model_table :=
  {| values := map (map lit) rows |}.

(** Reading element [i] of an array of [n] elements. *)
Definition array_at {A : Type} (n : Z) (a : list A) (i : Z) : outcome A :=
  if (0 <=? i)%Z && (i <? n)%Z then
    match nth_error a (Z.to_nat i) with
    | Some x => Ok x
    | None => UB OutOfBounds
    end
  else UB OutOfBounds.

(** [table->values[T][S]]. *)
Definition table_at (table : battery_model_table) (T S : Z) : outcome float :=
  (row <- array_at battery_model_table_temps (values table) T ;;
   array_at battery_model_table_SOCs row S)%monad.

Definition battery_model_temperatures : list float :=
  map lit [-20.0; -10.0; -5.0; 2.0]%Q.

Definition battery_model_Em : battery_model_table := table_of [
  [3.5;3.65;3.7;3.75;3.78;3.8;3.85;3.9;3.95;4.1;4.2];
  [3.5;3.65;3.7;3.746368;3.794009;3.824597;3.870755;3.921037;3.984153;4.1;4.2];
  [3.5;3.717802;3.751656;3.779548;3.805342;3.837747;3.886275;3.92452;4.019383;4.131402;4.2];
  [3.5;3.723299;3.754516;3.788628;3.812054;3.840599;3.888213;3.933897;4.024288;4.130746;4.182739]
]%Q.

Definition battery_model_R0 : battery_model_table := table_of [
  [0.26;0.26;0.26;0.13;0.13;0.13;0.13;0.13;0.25;0.2;0.67];
  [0.3;0.050589;0.144401;0.085073;0.091675;0.085872;0.08382;0.084737;0.075961;0.15;0.25];
  [0.2;0.029142;0.029737;0.031219;0.031587;0.030885;0.031477;0.030845;0.030875;0.025;0.016];
  [0.032564;0.022225;0.019854;0.024638;0.022878;0.021342;0.022003;0.02195;0.021421;0.023454;0.014168]
]%Q.

Definition battery_model_R1 : battery_model_table := table_of [
  [2;0.75;0.21;0.190953;0.147748;0.127334;0.143009;0.180778;0.1;0.261743;0.85];
  [0.003815;0.007988;0.020238;0.015108;0.01404;0.014878;0.014838;0.014781;0.015083;0.15;0.3];
  [0.011421;0.003253;0.012514;0.00939;0.010378;0.009284;0.008821;0.008391;0.010644;0.008414;0.007233];
  [0.025991;0.003294;0.013872;0.013772;0.013957;0.011306;0.01088;0.01135;0.015937;0.012274;0.007585]
]%Q.

Definition battery_model_C1 : battery_model_table := table_of [
  [400;500;600;846;846;846;846;846;600;846;596];
  [14.34898;28719.38;1818.858;5832.355;8962.667;8772.705;8750.688;8565.881;7004.807;11188.4;7370.326];
  [0.881527;33414.97;2179.029;11289.18;7234.158;6226.428;5750.18;9030.291;3869.932;11851;7122.03];
  [0.262732;50759.86;3022.06;15720.72;8308.124;7180.572;6619.685;13150.94;4201.662;15103.12;6852.036]
]%Q.

(** ** Bilinear interpolation

    The two saturations of the "next" indices are kept as the source writes
    them: to [battery_model_table_SOCs - 1] along the state of charge, to
    [battery_model_table_temps] along the temperature.  Indices are
    unbounded integers here; an index the C [int] arithmetic could not
    hold is far outside the table, and the first read with it fails. *)

Definition SOC_next_of (SOC_index : Z) : Z :=
  let SOC_next := (SOC_index + 1)%Z in
  if (SOC_next >=? battery_model_table_SOCs)%Z
  then (battery_model_table_SOCs - 1)%Z else SOC_next.

Definition T_next_of (T_index : Z) : Z :=
  let T_next := (T_index + 1)%Z in
  if (T_next >=? battery_model_table_temps)%Z
  then battery_model_table_temps else T_next.

Definition battery_model_interpolate (table : battery_model_table)
    (T_number : float) (T_index : Z) (SOC_number : float) (SOC_index : Z)
    : outcome float :=
  (let SOC_next := SOC_next_of SOC_index in
   let T_next := T_next_of T_index in
   II <- table_at table T_index SOC_index ;;
   IN <- table_at table T_index SOC_next ;;
   TI <- table_at table T_next SOC_index ;;
   TN <- table_at table T_next SOC_next ;;
   let I := II + (IN - II) * (SOC_number - int_to_float SOC_index) in
   let T := TI + (TN - TI) * (SOC_number - int_to_float SOC_index) in
   ret (I + (T - I) * (T_number - int_to_float T_index)))%monad.

(** ** Operations on a battery

    The functions of the source take a pointer to the battery they read or
    update; here they are computations over the battery as state. *)

Definition Sim (A : Type) : Type := battery_model -> outcome (A * battery_model).

#[global] Instance Sim_Monad : Monad Sim := {
  ret := fun A a b => Ok (a, b);
  bind := fun A B c k b =>
    match c b with
    | Ok (a, b') => k a b'
    | UB f => UB f
    end
}.

(** Read a field of the battery. *)
Definition gets {A : Type} (field : battery_model -> A) : Sim A :=
  fun b => Ok (field b, b).

(** Update the battery in place. *)
Definition modify (upd : battery_model -> battery_model) : Sim unit :=
  fun b => Ok (tt, upd b).

(** A computation that does not touch the battery. *)
Definition lift {A : Type} (c : outcome A) : Sim A :=
  fun b => match c with Ok a => Ok (a, b) | UB f => UB f end.

Definition set_capacityAs (x : float) (b : battery_model) : battery_model :=
  {| capacityAs := x; SOC := SOC b; C1Q := C1Q b; cellT := cellT b |}.
Definition set_SOC (x : float) (b : battery_model) : battery_model :=
  {| capacityAs := capacityAs b; SOC := x; C1Q := C1Q b; cellT := cellT b |}.
Definition set_C1Q (x : float) (b : battery_model) : battery_model :=
  {| capacityAs := capacityAs b; SOC := SOC b; C1Q := x; cellT := cellT b |}.
Definition set_cellT (x : float) (b : battery_model) : battery_model :=
  {| capacityAs := capacityAs b; SOC := SOC b; C1Q := C1Q b; cellT := x |}.

(** *** Parameter lookup *)

(** The state-of-charge coordinate and its index, after both guards. *)
Definition SOC_lookup (soc : float) : outcome (float * Z) :=
  (let SOC_number := soc * int_to_float (battery_model_table_SOCs - 1) in
   SOC_index <- float_to_int SOC_number ;;
   let '(SOC_number, SOC_index) :=
     if (SOC_index <? 0)%Z then (int_to_float 0, 0%Z)
     else (SOC_number, SOC_index) in
   let '(SOC_number, SOC_index) :=
     if (SOC_index >=? battery_model_table_SOCs)%Z
     then (int_to_float (battery_model_table_SOCs - 1),
           (battery_model_table_SOCs - 1)%Z)
     else (SOC_number, SOC_index) in
   ret (SOC_number, SOC_index))%monad.

(** The guard of the temperature scan:
    [T_index+1 < battery_model_table_temps
     && battery_model_temperatures[T_index+1] <= lookupT]. *)
Definition T_scan_guard (T_index : Z) (lookupT : float) : bool :=
  (T_index + 1 <? battery_model_table_temps)%Z &&
  match array_at battery_model_table_temps battery_model_temperatures
                 (T_index + 1) with
  | Ok next => fle next lookupT
  | UB _ => false
  end.

(** The scan [while (guard) T_index++], unrolled at most [fuel] times. *)
Fixpoint T_scan (fuel : nat) (T_index : Z) (lookupT : float) : Z :=
  match fuel with
  | O => T_index
  | S fuel' =>
      if T_scan_guard T_index lookupT
      then T_scan fuel' (T_index + 1)%Z lookupT
      else T_index
  end.

(** The temperature index and coordinate. *)
Definition T_lookup (lookupT : float) : outcome (float * Z) :=
  (let T_index :=
     T_scan (Z.to_nat battery_model_table_temps) 0%Z lookupT in
   if (T_index + 1 <? battery_model_table_temps)%Z then
     last <- array_at battery_model_table_temps
                      battery_model_temperatures T_index ;;
     next <- array_at battery_model_table_temps
                      battery_model_temperatures (T_index + 1) ;;
     ret (int_to_float T_index + (lookupT - last) / (next - last), T_index)
   else
     ret (int_to_float 0, T_index))%monad.

Definition battery_model_get_parameters : Sim battery_model_parameters :=
  (soc <- gets SOC ;;
   '(SOC_number, SOC_index) <- lift (SOC_lookup soc) ;;
   lookupT <- gets cellT ;;
   '(T_number, T_index) <- lift (T_lookup lookupT) ;;
   Em_ <- lift (battery_model_interpolate battery_model_Em
                  T_number T_index SOC_number SOC_index) ;;
   R0_ <- lift (battery_model_interpolate battery_model_R0
                  T_number T_index SOC_number SOC_index) ;;
   R1_ <- lift (battery_model_interpolate battery_model_R1
                  T_number T_index SOC_number SOC_index) ;;
   C1_ <- lift (battery_model_interpolate battery_model_C1
                  T_number T_index SOC_number SOC_index) ;;
   ret {| Em := Em_; R0 := R0_; R1 := R1_; C1 := C1_ |})%monad.

(** *** Construction, voltage, electrical and thermal steps *)

Definition battery_model_init (capacityAh SOC_ tempC : float) : Sim unit :=
  (modify (set_capacityAs (capacityAh * lit 3600.0)) ;;;
   modify (set_SOC SOC_) ;;;
   modify (set_cellT tempC) ;;;
   modify (set_C1Q (lit 0.0)))%monad.

Definition battery_model_voltage (amps : float) : Sim float :=
  (param <- battery_model_get_parameters ;;
   let R0V := R0 param * amps in
   q <- gets C1Q ;;
   let R1V := q / C1 param in
   ret (Em param - R1V - R0V))%monad.

Definition battery_model_electrical (amps dt : float) : Sim float :=
  (param <- battery_model_get_parameters ;;
   let R0I := amps in
   let R0V := R0 param * R0I in
   q <- gets C1Q ;;
   let C1V := q / C1 param in
   let R1V := C1V in
   let R1I := R1V / R1 param in
   let C1I := amps - R1I in
   modify (fun b => set_C1Q (C1Q b + C1I * dt) b) ;;;
   let SOC_amps := amps in
   modify (fun b => set_SOC (SOC b - SOC_amps * dt / capacityAs b) b) ;;;
   let power := R0V * R0I + R1V * R1I in
   let energy := power * dt in
   ret energy)%monad.

Definition battery_model_thermal
    (heating_joules specific_heat mass ambientT Rvalue area dt : float)
    : Sim unit :=
  (T <- gets cellT ;;
   let cool_joules := (T - ambientT) * area / Rvalue * dt in
   let netT := (heating_joules - cool_joules) / (specific_heat * mass) in
   modify (fun b => set_cellT (cellT b + netT) b))%monad.

(** *** The two steps with every division checked

    The same statements in the same order; each quotient goes through
    [fdiv].  The divisors are the resolved [C1] and [R1] and the capacity in
    the electrical step, [Rvalue] and [specific_heat*mass] in the thermal
    step: arguments and table values, never a computed quotient. *)

Definition battery_model_electrical_checked (amps dt : float) : Sim float :=
  (param <- battery_model_get_parameters ;;
   let R0I := amps in
   let R0V := R0 param * R0I in
   q <- gets C1Q ;;
   C1V <- lift (fdiv q (C1 param)) ;;
   let R1V := C1V in
   R1I <- lift (fdiv R1V (R1 param)) ;;
   let C1I := amps - R1I in
   modify (fun b => set_C1Q (C1Q b + C1I * dt) b) ;;;
   let SOC_amps := amps in
   capacity <- gets capacityAs ;;
   drawn <- lift (fdiv (SOC_amps * dt) capacity) ;;
   modify (fun b => set_SOC (SOC b - drawn) b) ;;;
   let power := R0V * R0I + R1V * R1I in
   let energy := power * dt in
   ret energy)%monad.

Definition battery_model_thermal_checked
    (heating_joules specific_heat mass ambientT Rvalue area dt : float)
    : Sim unit :=
  (T <- gets cellT ;;
   flux <- lift (fdiv ((T - ambientT) * area) Rvalue) ;;
   let cool_joules := flux * dt in
   netT <- lift (fdiv (heating_joules - cool_joules)
                      (specific_heat * mass)) ;;
   modify (fun b => set_cellT (cellT b + netT) b))%monad.

(** *** The demonstration driver

    One pass of the loop of [main]: the voltage, the electrical step and the
    thermal step, with the constants [main] passes ([S = 1] cell in series,
    [int dt = 12] seconds, ambient -20 degrees).  [volts] is what the pass
    reports.  The draw current is an argument: the charge schedule that
    chooses it and the printing are not part of the model. *)

Definition main_ambientT : float := lit (-20.0).
Definition main_S : Z := 1.
Definition main_dt : Z := 12.

Definition main_step (amps : float) : Sim float :=
  (v <- battery_model_voltage amps ;;
   let volts := int_to_float main_S * v in
   h <- battery_model_electrical amps (int_to_float main_dt) ;;
   let heat := int_to_float main_S * h in
   battery_model_thermal heat (lit 0.9) (lit 150.0) main_ambientT
                         (lit 0.1) (lit 0.1 * lit 0.1)
                         (int_to_float main_dt) ;;;
   ret volts)%monad.

(** ** Notions used in the statements *)

(** The integral part of [x] fits an [int], so that [(int)x] is defined. *)
Definition castable (x : float) : Prop :=
  (INT_MIN <= truncate x <= INT_MAX)%Z.

(** A table has the declared dimensions. *)
Definition table_dims_ok (table : battery_model_table) : bool :=
  (Z.of_nat (length (values table)) =? battery_model_table_temps)%Z &&
  forallb (fun row => (Z.of_nat (length row) =? battery_model_table_SOCs)%Z)
          (values table).

(** The blend along the state-of-charge axis within the temperature row [T]:
    the first stage of the bilinear interpolation. *)
Definition SOC_blend (table : battery_model_table) (T : Z)
    (SOC_number : float) (SOC_index : Z) : outcome float :=
  (II <- table_at table T SOC_index ;;
   IN <- table_at table T (SOC_next_of SOC_index) ;;
   ret (II + (IN - II) * (SOC_number - int_to_float SOC_index)))%monad.

(** The four table lookups of the parameter resolver. *)
Definition interpolate_all (T_number : float) (T_index : Z)
    (SOC_number : float) (SOC_index : Z) : outcome battery_model_parameters :=
  (Em_ <- battery_model_interpolate battery_model_Em
            T_number T_index SOC_number SOC_index ;;
   R0_ <- battery_model_interpolate battery_model_R0
            T_number T_index SOC_number SOC_index ;;
   R1_ <- battery_model_interpolate battery_model_R1
            T_number T_index SOC_number SOC_index ;;
   C1_ <- battery_model_interpolate battery_model_C1
            T_number T_index SOC_number SOC_index ;;
   ret {| Em := Em_; R0 := R0_; R1 := R1_; C1 := C1_ |})%monad.

(** The state-of-charge blends of the four tables in the temperature row [T]. *)
Definition blend_all (T : Z) (SOC_number : float) (SOC_index : Z)
    : outcome battery_model_parameters :=
  (Em_ <- SOC_blend battery_model_Em T SOC_number SOC_index ;;
   R0_ <- SOC_blend battery_model_R0 T SOC_number SOC_index ;;
   R1_ <- SOC_blend battery_model_R1 T SOC_number SOC_index ;;
   C1_ <- SOC_blend battery_model_C1 T SOC_number SOC_index ;;
   ret {| Em := Em_; R0 := R0_; R1 := R1_; C1 := C1_ |})%monad.

(** The four parameters the resolver computes at a state of charge and a
    temperature, as a function of these two fields alone. *)
Definition parameters_at (soc lookupT : float)
    : outcome battery_model_parameters :=
  ('(SOC_number, SOC_index) <- SOC_lookup soc ;;
   '(T_number, T_index) <- T_lookup lookupT ;;
   interpolate_all T_number T_index SOC_number SOC_index)%monad.

(** The parameters resolved at the temperature bucket [T_index] itself:
    floor index [T_index], zero fractional offset. *)
Definition parameters_at_bucket (soc : float) (T_index : Z)
    : outcome battery_model_parameters :=
  ('(SOC_number, SOC_index) <- SOC_lookup soc ;;
   interpolate_all (int_to_float T_index) T_index SOC_number SOC_index)%monad.

(** Two parameter sets blended with the weight [x]; a weight outside [0, 1]
    extrapolates. *)
Definition lerp (a b : battery_model_parameters) (x : float)
    : battery_model_parameters :=
  {| Em := Em a + (Em b - Em a) * x;
     R0 := R0 a + (R0 b - R0 a) * x;
     R1 := R1 a + (R1 b - R1 a) * x;
     C1 := C1 a + (C1 b - C1 a) * x |}.



(** *** Batteries the statements are evaluated at *)

(** The battery of the demonstration driver: 1.8 Ah, full, at -20 deg C. *)
Definition full_cold_battery : battery_model :=
  {| capacityAs := lit 6480; SOC := lit 1.0; C1Q := lit 0;
     cellT := lit (-20.0) |}.

Definition half_frozen_battery : battery_model :=
  {| capacityAs := lit 6480; SOC := lit 0.5; C1Q := lit 0;
     cellT := lit (-30.0) |}.

Definition warm_battery : battery_model :=
  {| capacityAs := lit 6480; SOC := lit 1.0; C1Q := lit 0;
     cellT := lit 2.0 |}.

Definition empty_battery : battery_model :=
  {| capacityAs := lit 6480; SOC := lit 0.0; C1Q := lit 1;
     cellT := lit (-10.0) |}.


Definition overfull_battery : battery_model :=
  {| capacityAs := lit 6480; SOC := lit 1.25; C1Q := lit 0;
     cellT := lit (-20.0) |}.

(** *** Proof steps that recur *)

(** Turn a goal on canonical rationals into one on rationals, where [lra]
    and [nra] apply. *)
Ltac qc_to_q :=
  unfold Qclt, Qcle, Qcdiv, Qcminus, Qcplus, Qcmult, Qcopp, Qcinv,
    lit, int_to_float in *;
  cbn [this Q2Qc] in *;
  repeat (rewrite Qred_correct in * ).

(** Evaluate a lookup at concrete arguments; [ext] is extensionality of the
    result in its rational fields. *)
Ltac eval_with ext := vm_compute; apply f_equal; apply ext; reflexivity.

(** Settle a bounded comparison of integers by [lia] after exposing the
    table dimensions. *)
Ltac dims := unfold battery_model_table_temps, battery_model_table_SOCs in *; lia.

(** ** Further notions: table bounds, grid entries *)

(** Every entry of a table lies between [lo] and [hi]. *)
Definition table_within (lo hi : float) (table : battery_model_table) : bool :=
  forallb (forallb (fun x => fle lo x && fle x hi)) (values table).

(** The table entries at a grid point, for the four parameters. *)
Definition grid_parameters (T S : Z) : outcome battery_model_parameters :=
  (Em_ <- table_at battery_model_Em T S ;;
   R0_ <- table_at battery_model_R0 T S ;;
   R1_ <- table_at battery_model_R1 T S ;;
   C1_ <- table_at battery_model_C1 T S ;;
   ret {| Em := Em_; R0 := R0_; R1 := R1_; C1 := C1_ |})%monad.

(** The factor one thermal step applies to the distance from ambient. *)
Definition thermal_factor (specific_heat mass Rvalue area dt : float)
    : float :=
  1 - area * dt / (Rvalue * (specific_heat * mass)).


(** A battery inside the calibrated range, off the grid. *)
Definition typical_battery : battery_model :=
  {| capacityAs := lit 6480; SOC := lit 0.73; C1Q := lit 25;
     cellT := lit (-7.5) |}.

(** A state of charge whose coordinate does not fit an [int]. *)
Definition absurd_battery : battery_model :=
  {| capacityAs := lit 6480; SOC := lit 300000000; C1Q := lit 0;
     cellT := lit (-20.0) |}.


(** A battery on a grid point: bucket -10 degrees, state of charge 0.3. *)
Definition grid_battery : battery_model :=
  {| capacityAs := lit 6480; SOC := lit 0.3; C1Q := lit 25;
     cellT := lit (-10.0) |}.

(** * Properties *)

(** ** The parameter lookup only reads the battery *)

Lemma get_parameters_lift (b : battery_model) :
  battery_model_get_parameters b = lift (parameters_at (SOC b) (cellT b)) b.
Proof.
  unfold battery_model_get_parameters, parameters_at, interpolate_all,
    lift, gets; simpl.
  destruct (SOC_lookup (SOC b)) as [[sn si]|f]; simpl; [|reflexivity].
  destruct (T_lookup (cellT b)) as [[tn ti]|f]; simpl; [|reflexivity].
  repeat match goal with
  | |- context [battery_model_interpolate ?t ?a ?b ?c ?d] =>
      destruct (battery_model_interpolate t a b c d); simpl; [|reflexivity]
  end.
  reflexivity.
Qed.

Lemma get_parameters_Ok (b b' : battery_model) (p : battery_model_parameters) :
  battery_model_get_parameters b = Ok (p, b') ->
  parameters_at (SOC b) (cellT b) = Ok p /\ b' = b.
Proof.
  rewrite get_parameters_lift. unfold lift.
  destruct (parameters_at (SOC b) (cellT b)); intros H; inversion H; auto.
Qed.

Lemma parameters_at_Ok (b : battery_model) (p : battery_model_parameters) :
  parameters_at (SOC b) (cellT b) = Ok p ->
  battery_model_get_parameters b = Ok (p, b).
Proof. intros H. rewrite get_parameters_lift, H. reflexivity. Qed.


Lemma params_ext (p q : battery_model_parameters) :
  this (Em p) = this (Em q) -> this (R0 p) = this (R0 q) ->
  this (R1 p) = this (R1 q) -> this (C1 p) = this (C1 q) ->
  p = q.
Proof.
  destruct p, q; simpl. intros He H0 H1 Hc.
  apply Qc_decomp in He, H0, H1, Hc. subst. reflexivity.
Qed.

Lemma Ok_coordinate (x y : float) (i : Z) :
  this x = this y -> @Ok (float * Z) (x, i) = Ok (y, i).
Proof. intros H. apply Qc_decomp in H. subst. reflexivity. Qed.

(** ** Construction (C9) *)

(** C9, as the code has it: [battery_model_init] validates nothing.  For
    every capacity, positive or not, it succeeds and leaves a battery with
    [capacityAs = capacityAh * 3600], the given state of charge and
    temperature, and a capacitor charge of 0. *)
Theorem init_always_succeeds (capacityAh SOC_ tempC : float)
    (b : battery_model) :
  battery_model_init capacityAh SOC_ tempC b =
  Ok (tt, {| capacityAs := capacityAh * lit 3600; SOC := SOC_;
             C1Q := 0; cellT := tempC |}).
Proof.
  assert (E1 : lit 3600.0 = lit 3600) by (apply Qc_decomp; reflexivity).
  assert (E0 : lit 0.0 = 0) by (apply Qc_decomp; reflexivity).
  unfold battery_model_init; simpl. unfold modify; simpl.
  rewrite E1, E0. reflexivity.
Qed.

(** C9 as stated fails: a capacity of -1.8 Ah is accepted, and the battery
    built has a capacity of -6480 amp-seconds. *)
Lemma init_nonpositive_capacity_succeeds :
  lit (-1.8) <= 0 /\
  battery_model_init (lit (-1.8)) (lit 1.0) (lit (-20.0)) warm_battery =
  Ok (tt, {| capacityAs := lit (-6480); SOC := lit 1.0;
             C1Q := 0; cellT := lit (-20.0) |}).
Proof.
  split.
  - vm_compute. discriminate.
  - assert (E : lit (-1.8) * lit 3600.0 = lit (-6480))
      by (apply Qc_decomp; reflexivity).
    assert (E0 : lit 0.0 = 0) by (apply Qc_decomp; reflexivity).
    unfold battery_model_init; simpl. unfold modify; simpl.
    rewrite E, E0. reflexivity.
Qed.

(** ** Voltage and the electrical step (C3, C5, C6) *)

(** The electrical step, once the parameters are resolved. *)
Lemma electrical_Ok (b b0 : battery_model) (amps dt : float)
    (p : battery_model_parameters) :
  battery_model_get_parameters b = Ok (p, b0) ->
  battery_model_electrical amps dt b =
  Ok ((R0 p * amps * amps
       + C1Q b / C1 p * (C1Q b / C1 p / R1 p)) * dt,
      {| capacityAs := capacityAs b;
         SOC := SOC b - amps * dt / capacityAs b;
         C1Q := C1Q b + (amps - C1Q b / C1 p / R1 p) * dt;
         cellT := cellT b |}).
Proof.
  intros H. destruct (get_parameters_Ok b b0 p H) as [_ ->].
  unfold battery_model_electrical; simpl. rewrite H. reflexivity.
Qed.

(** C5: with the parameters [(Em, R0, R1, C1)] resolved from the battery,
    [battery_model_voltage] returns [Em - C1Q/C1 - R0*amps] and leaves the
    battery as it was. *)
Theorem voltage_formula (b b0 : battery_model) (amps : float)
    (p : battery_model_parameters) :
  battery_model_get_parameters b = Ok (p, b0) ->
  battery_model_voltage amps b = Ok (Em p - C1Q b / C1 p - R0 p * amps, b).
Proof.
  intros H. destruct (get_parameters_Ok b b0 p H) as [_ ->].
  unfold battery_model_voltage; simpl. rewrite H. reflexivity.
Qed.

(** C3: with the parameters resolved from the pre-state, [V1 = C1Q/C1] and
    [I1 = V1/R1], the electrical step sets the capacitor charge to
    [C1Q + (amps - I1)*dt], the state of charge to [SOC - amps*dt/capacity],
    returns the heat [(R0*amps*amps + V1*I1)*dt], and keeps the capacity
    and the temperature. *)
Theorem electrical_step (b b0 : battery_model) (amps dt : float)
    (p : battery_model_parameters) :
  0 < dt ->
  battery_model_get_parameters b = Ok (p, b0) ->
  let V1 := C1Q b / C1 p in
  let I1 := V1 / R1 p in
  battery_model_electrical amps dt b =
  Ok ((R0 p * amps * amps + V1 * I1) * dt,
      {| capacityAs := capacityAs b;
         SOC := SOC b - amps * dt / capacityAs b;
         C1Q := C1Q b + (amps - I1) * dt;
         cellT := cellT b |}).
Proof. intros _ H. exact (electrical_Ok b b0 amps dt p H). Qed.



(** ** The thermal step (C8) *)


(** ** Table reads and interpolation *)

Lemma array_at_fault {A : Type} (n : Z) (a : list A) (i : Z) (f : fault) :
  array_at n a i = UB f -> f = OutOfBounds.
Proof.
  unfold array_at.
  destruct ((0 <=? i)%Z && (i <? n)%Z); [destruct (nth_error a (Z.to_nat i))|];
    intros H; inversion H; reflexivity.
Qed.

Lemma array_at_outside {A : Type} (n : Z) (a : list A) (i : Z) :
  (n <= i)%Z -> array_at n a i = UB OutOfBounds.
Proof.
  intros H. unfold array_at.
  replace (i <? n)%Z with false by (symmetry; apply Z.ltb_ge; exact H).
  rewrite andb_false_r. reflexivity.
Qed.

Lemma array_at_inside {A : Type} (n : Z) (a : list A) (i : Z) :
  Z.of_nat (length a) = n -> (0 <= i < n)%Z ->
  exists x, array_at n a i = Ok x /\ nth_error a (Z.to_nat i) = Some x.
Proof.
  intros Hlen Hi. unfold array_at.
  replace (0 <=? i)%Z with true by (symmetry; apply Z.leb_le; lia).
  replace (i <? n)%Z with true by (symmetry; apply Z.ltb_lt; lia).
  simpl.
  destruct (nth_error a (Z.to_nat i)) as [x|] eqn:E.
  - exists x. split; reflexivity.
  - apply nth_error_None in E. lia.
Qed.

Lemma SOC_next_of_range (SOC_index : Z) :
  (0 <= SOC_index <= battery_model_table_SOCs - 1)%Z ->
  (0 <= SOC_next_of SOC_index < battery_model_table_SOCs)%Z.
Proof.
  unfold SOC_next_of, battery_model_table_SOCs. cbv zeta. intros H.
  destruct (SOC_index + 1 >=? 11)%Z eqn:E; [lia|].
  rewrite Z.geb_leb in E. apply Z.leb_gt in E. lia.
Qed.

Lemma T_next_of_inside (T_index : Z) :
  (0 <= T_index <= battery_model_table_temps - 2)%Z ->
  T_next_of T_index = (T_index + 1)%Z.
Proof.
  unfold T_next_of, battery_model_table_temps. cbv zeta. intros H.
  destruct (T_index + 1 >=? 4)%Z eqn:E; [|reflexivity].
  rewrite Z.geb_leb in E. apply Z.leb_le in E. lia.
Qed.

Lemma T_next_of_last :
  T_next_of (battery_model_table_temps - 1) = battery_model_table_temps.
Proof. reflexivity. Qed.

Section TableReads.

Variable table : battery_model_table.

Lemma table_at_fault (T S : Z) (f : fault) :
  table_at table T S = UB f -> f = OutOfBounds.
Proof.
  unfold table_at; simpl.
  destruct (array_at battery_model_table_temps (values table) T) eqn:E.
  - apply array_at_fault.
  - intros H; inversion H; subst. eapply array_at_fault; eassumption.
Qed.

Lemma table_at_past_last_row (S : Z) :
  table_at table battery_model_table_temps S = UB OutOfBounds.
Proof.
  unfold table_at. rewrite array_at_outside by apply Z.le_refl. reflexivity.
Qed.

(** The interpolation is two blends along the state of charge, blended
    along the temperature. *)
Lemma interpolate_blend (T_number : float) (T_index : Z)
    (SOC_number : float) (SOC_index : Z) :
  battery_model_interpolate table T_number T_index SOC_number SOC_index =
  (I <- SOC_blend table T_index SOC_number SOC_index ;;
   T <- SOC_blend table (T_next_of T_index) SOC_number SOC_index ;;
   ret (I + (T - I) * (T_number - int_to_float T_index)))%monad.
Proof.
  unfold battery_model_interpolate, SOC_blend. cbn [bind ret outcome_Monad].
  destruct (table_at table T_index SOC_index); [|reflexivity].
  destruct (table_at table T_index (SOC_next_of SOC_index)); [|reflexivity].
  destruct (table_at table (T_next_of T_index) SOC_index); [|reflexivity].
  destruct (table_at table (T_next_of T_index) (SOC_next_of SOC_index));
    reflexivity.
Qed.

(** With the floor index at the last temperature row, the row read as
    "next" is one past the table. *)
Lemma interpolate_last_row (T_number SOC_number : float) (SOC_index : Z) :
  battery_model_interpolate table T_number (battery_model_table_temps - 1)
                            SOC_number SOC_index = UB OutOfBounds.
Proof.
  unfold battery_model_interpolate. rewrite T_next_of_last.
  cbn [bind outcome_Monad].
  destruct (table_at table (battery_model_table_temps - 1) SOC_index) eqn:EII;
    [|apply table_at_fault in EII; subst; reflexivity].
  destruct (table_at table (battery_model_table_temps - 1)
                     (SOC_next_of SOC_index)) eqn:EIN;
    [|apply table_at_fault in EIN; subst; reflexivity].
  rewrite table_at_past_last_row. reflexivity.
Qed.

(** In the last state-of-charge column the blend is the stored value. *)
Lemma SOC_blend_last_column (T : Z) (SOC_number : float) :
  SOC_blend table T SOC_number (battery_model_table_SOCs - 1) =
  table_at table T (battery_model_table_SOCs - 1).
Proof.
  unfold SOC_blend.
  replace (SOC_next_of (battery_model_table_SOCs - 1))
    with (battery_model_table_SOCs - 1)%Z by reflexivity.
  cbn [bind ret outcome_Monad].
  destruct (table_at table T (battery_model_table_SOCs - 1)) as [II|f];
    [|reflexivity].
  apply f_equal. ring.
Qed.

Lemma interpolate_last_column (T_number : float) (T_index : Z)
    (s s' : float) :
  battery_model_interpolate table T_number T_index s
                            (battery_model_table_SOCs - 1) =
  battery_model_interpolate table T_number T_index s'
                            (battery_model_table_SOCs - 1).
Proof. rewrite !interpolate_blend, !SOC_blend_last_column. reflexivity. Qed.

Hypothesis dims_ok : table_dims_ok table = true.

Lemma table_at_inside (T S : Z) :
  (0 <= T < battery_model_table_temps)%Z ->
  (0 <= S < battery_model_table_SOCs)%Z ->
  exists x, table_at table T S = Ok x.
Proof.
  intros HT HS. pose proof dims_ok as Hd. unfold table_dims_ok in Hd.
  apply andb_true_iff in Hd as [Hrows Hcols].
  apply Z.eqb_eq in Hrows.
  destruct (array_at_inside _ (values table) T Hrows HT)
    as (row & Hrow & Hnth).
  unfold table_at; simpl. rewrite Hrow.
  rewrite forallb_forall in Hcols.
  assert (Hlen : Z.of_nat (length row) = battery_model_table_SOCs).
  { apply Z.eqb_eq, Hcols. eapply nth_error_In; eassumption. }
  destruct (array_at_inside _ row S Hlen HS) as (x & Hx & _).
  exists x. exact Hx.
Qed.

Lemma SOC_blend_inside (T : Z) (SOC_number : float) (SOC_index : Z) :
  (0 <= T < battery_model_table_temps)%Z ->
  (0 <= SOC_index <= battery_model_table_SOCs - 1)%Z ->
  exists v, SOC_blend table T SOC_number SOC_index = Ok v.
Proof.
  intros HT HS. unfold SOC_blend. cbn [bind ret outcome_Monad].
  destruct (table_at_inside T SOC_index HT) as [II ->]; [dims|].
  destruct (table_at_inside T (SOC_next_of SOC_index) HT
              (SOC_next_of_range SOC_index HS)) as [IN ->].
  eexists; reflexivity.
Qed.

(** Away from the last temperature row every read is inside the table and
    the interpolation has a value. *)
Lemma interpolate_inside (T_number : float) (T_index : Z)
    (SOC_number : float) (SOC_index : Z) :
  (0 <= T_index <= battery_model_table_temps - 2)%Z ->
  (0 <= SOC_index <= battery_model_table_SOCs - 1)%Z ->
  exists I T,
    SOC_blend table T_index SOC_number SOC_index = Ok I /\
    SOC_blend table (T_index + 1) SOC_number SOC_index = Ok T /\
    battery_model_interpolate table T_number T_index SOC_number SOC_index =
    Ok (I + (T - I) * (T_number - int_to_float T_index)).
Proof.
  intros HT HS. rewrite interpolate_blend, (T_next_of_inside T_index HT).
  destruct (SOC_blend_inside T_index SOC_number SOC_index)
    as [I HI]; [dims|exact HS|].
  destruct (SOC_blend_inside (T_index + 1)%Z SOC_number SOC_index)
    as [T HT']; [dims|exact HS|].
  exists I, T. rewrite HI, HT'. repeat split; reflexivity.
Qed.

End TableReads.

Lemma calibration_tables_dims :
  table_dims_ok battery_model_Em = true /\
  table_dims_ok battery_model_R0 = true /\
  table_dims_ok battery_model_R1 = true /\
  table_dims_ok battery_model_C1 = true.
Proof. repeat split; reflexivity. Qed.

(** C2, evaluated on the code: with the temperature floor index at the last
    bucket, the "next" row index is [battery_model_table_temps], one past
    the last row, and the interpolation reads outside the table, whatever
    the table, the coordinates and the state-of-charge index. *)
Theorem interpolate_reads_past_last_temperature_row
    (table : battery_model_table) (T_number SOC_number : float)
    (SOC_index : Z) :
  T_next_of (battery_model_table_temps - 1) = battery_model_table_temps /\
  battery_model_interpolate table T_number (battery_model_table_temps - 1)
                            SOC_number SOC_index = UB OutOfBounds.
Proof.
  split; [exact T_next_of_last|].
  apply interpolate_last_row.
Qed.

(** ** Truncation and the cast to int *)

Lemma float_to_int_castable (x : float) :
  castable x -> float_to_int x = Ok (truncate x).
Proof.
  unfold castable, float_to_int. intros [Hlo Hhi].
  apply Z.leb_le in Hlo. apply Z.leb_le in Hhi.
  cbv zeta. rewrite Hlo, Hhi. reflexivity.
Qed.

Lemma truncate_nonneg (x : float) :
  0 <= x -> truncate x = Qfloor x.
Proof.
  unfold Qcle, truncate, Qfloor. destruct x as [[n d] Hc]; simpl.
  unfold Qle; simpl. intros H.
  apply Z.quot_div_nonneg; lia.
Qed.

Lemma truncate_nonpos (x : float) :
  x <= 0 -> truncate x = Qceiling x.
Proof.
  unfold Qcle, truncate, Qceiling, Qfloor. destruct x as [[n d] Hc]; simpl.
  unfold Qle; simpl. intros H.
  replace n with (- (- n))%Z at 1 by lia.
  rewrite Z.quot_opp_l by lia. f_equal.
  apply Z.quot_div_nonneg; lia.
Qed.

(** Bounds of the truncation by integers, on both sides of zero. *)
Lemma truncate_bounds_nonneg (x : float) :
  0 <= x ->
  (0 <= truncate x)%Z /\
  (inject_Z (truncate x) <= x)%Q /\ (x < inject_Z (truncate x) + 1)%Q.
Proof.
  intros H. rewrite (truncate_nonneg x H).
  pose proof (Qfloor_le x) as Hle. pose proof (Qlt_floor x) as Hlt.
  rewrite inject_Z_plus in Hlt. change (inject_Z 1) with 1%Q in Hlt.
  repeat split; try assumption.
  unfold Qcle in H. simpl in H.
  assert (Hz : (-1 < inject_Z (Qfloor x))%Q) by lra.
  change (-1)%Q with (inject_Z (-1)) in Hz.
  rewrite <- Zlt_Qlt in Hz. lia.
Qed.

Lemma truncate_bounds_nonpos (x : float) :
  x <= 0 ->
  (truncate x <= 0)%Z /\
  (x <= inject_Z (truncate x))%Q /\ (inject_Z (truncate x) - 1 < x)%Q.
Proof.
  intros H. rewrite (truncate_nonpos x H).
  pose proof (Qle_ceiling x) as Hle. pose proof (Qceiling_lt x) as Hlt.
  unfold Z.sub in Hlt. rewrite inject_Z_plus in Hlt.
  change (inject_Z (Z.opp 1)) with (-1)%Q in Hlt.
  repeat split; try assumption; try lra.
  unfold Qcle in H. simpl in H.
  assert (Hz : (inject_Z (Qceiling x) < 1)%Q) by lra.
  change 1%Q with (inject_Z 1) in Hz.
  rewrite <- Zlt_Qlt in Hz. lia.
Qed.

Lemma Qc_sign_cases (x : float) : 0 <= x \/ x <= 0.
Proof.
  destruct (Qclt_le_dec x 0) as [H|H]; [right; apply Qclt_le_weak|left];
    exact H.
Qed.

(** The truncation of [x] is the integer [k] exactly on the interval the C
    conversion maps to [k]. *)
Lemma truncate_is_nonneg (x : float) (k : Z) :
  (0 <= k)%Z -> (inject_Z k <= x)%Q -> (x < inject_Z k + 1)%Q ->
  truncate x = k.
Proof.
  intros Hk Hlo Hhi.
  assert (H0 : 0 <= x).
  { unfold Qcle; simpl. rewrite (Zle_Qle 0 k) in Hk.
    change (inject_Z 0) with 0%Q in Hk. lra. }
  destruct (truncate_bounds_nonneg x H0) as (_ & Hle & Hlt).
  assert (A : (inject_Z k < inject_Z (truncate x + 1))%Q)
    by (rewrite inject_Z_plus; change (inject_Z 1) with 1%Q; lra).
  assert (B : (inject_Z (truncate x) < inject_Z (k + 1))%Q)
    by (rewrite inject_Z_plus; change (inject_Z 1) with 1%Q; lra).
  rewrite <- Zlt_Qlt in A, B. lia.
Qed.

Lemma truncate_ge (x : float) (k : Z) :
  (0 <= k)%Z -> (inject_Z k <= x)%Q -> (k <= truncate x)%Z.
Proof.
  intros Hk Hlo.
  assert (H0 : 0 <= x).
  { unfold Qcle; simpl. rewrite (Zle_Qle 0 k) in Hk.
    change (inject_Z 0) with 0%Q in Hk. lra. }
  destruct (truncate_bounds_nonneg x H0) as (_ & Hle & Hlt).
  assert (A : (inject_Z k < inject_Z (truncate x + 1))%Q)
    by (rewrite inject_Z_plus; change (inject_Z 1) with 1%Q; lra).
  rewrite <- Zlt_Qlt in A. lia.
Qed.

Lemma truncate_le_neg (x : float) (k : Z) :
  (k <= 0)%Z -> (x <= inject_Z k)%Q -> (truncate x <= k)%Z.
Proof.
  intros Hk Hhi.
  assert (H0 : x <= 0).
  { unfold Qcle; simpl. rewrite (Zle_Qle k 0) in Hk.
    change (inject_Z 0) with 0%Q in Hk. lra. }
  destruct (truncate_bounds_nonpos x H0) as (_ & Hle & Hlt).
  assert (A : (inject_Z (truncate x + -1) < inject_Z k)%Q)
    by (rewrite inject_Z_plus; change (inject_Z (-1)) with (-1)%Q; lra).
  rewrite <- Zlt_Qlt in A. lia.
Qed.

(** ** The state-of-charge coordinate (C4) *)

Lemma SOC_lookup_unfold (soc : float) :
  let c := soc * int_to_float (battery_model_table_SOCs - 1) in
  castable c ->
  SOC_lookup soc =
  Ok (if (truncate c <? 0)%Z then (int_to_float 0, 0%Z)
      else if (truncate c >=? battery_model_table_SOCs)%Z
           then (int_to_float (battery_model_table_SOCs - 1),
                 (battery_model_table_SOCs - 1)%Z)
           else (c, truncate c)).
Proof.
  intros c Hc. unfold SOC_lookup. fold c.
  rewrite (float_to_int_castable _ Hc). cbn [bind ret outcome_Monad].
  destruct (truncate c <? 0)%Z; [reflexivity|].
  destruct (truncate c >=? battery_model_table_SOCs)%Z; reflexivity.
Qed.

Lemma SOC_lookup_Ok (soc sn : float) (si : Z) :
  SOC_lookup soc = Ok (sn, si) ->
  (0 <= si <= battery_model_table_SOCs - 1)%Z.
Proof.
  unfold SOC_lookup.
  destruct (float_to_int (soc * int_to_float (battery_model_table_SOCs - 1)))
    as [z|f] eqn:E; cbn [bind ret outcome_Monad]; [|discriminate].
  destruct (z <? 0)%Z eqn:E0.
  - cbn. intros H; inversion H. unfold battery_model_table_SOCs. lia.
  - destruct (z >=? battery_model_table_SOCs)%Z eqn:E1;
      intros H; inversion H; subst.
    + unfold battery_model_table_SOCs. lia.
    + apply Z.ltb_ge in E0. rewrite Z.geb_leb in E1.
      apply Z.leb_gt in E1. lia.
Qed.

Lemma this_coordinate (soc : float) :
  (this (soc * int_to_float (battery_model_table_SOCs - 1)) == soc * 10)%Q.
Proof.
  unfold Qcmult, int_to_float. cbn [this Q2Qc]. rewrite !Qred_correct.
  reflexivity.
Qed.

Lemma this_int_to_float (z : Z) : (this (int_to_float z) == inject_Z z)%Q.
Proof. unfold int_to_float. cbn [this Q2Qc]. apply Qred_correct. Qed.

Lemma castable_small (x : float) :
  (-11 <= x)%Q -> (x <= 11)%Q -> castable x.
Proof.
  intros Hlo Hhi. unfold castable, INT_MIN, INT_MAX.
  destruct (Qc_sign_cases x) as [H|H].
  - destruct (truncate_bounds_nonneg x H) as (Hz & Hle & _).
    assert (A : (inject_Z (truncate x) < inject_Z 12)%Q)
      by (change (inject_Z 12) with 12%Q; lra).
    rewrite <- Zlt_Qlt in A. lia.
  - destruct (truncate_bounds_nonpos x H) as (Hz & Hle & _).
    assert (A : (inject_Z (-12) < inject_Z (truncate x))%Q)
      by (change (inject_Z (-12)) with (-12)%Q; lra).
    rewrite <- Zlt_Qlt in A. lia.
Qed.

(** C4, as the code has it: the coordinate is [soc * (SOCs - 1)].  For
    [0 <= soc < 1] the index lies in [0, SOCs - 2] and the fractional part
    in [0, 1); at [soc = 1] the index is [SOCs - 1] with a zero fraction.
    The two guards test the truncated index: for [soc >= 1.1], and for
    [soc <= -0.1], coordinate and index are both set to the edge bucket
    (as long as the cast to [int] is defined), while for [1 < soc < 1.1]
    the index is [SOCs - 1] and the coordinate stays [soc * (SOCs - 1)],
    with a fraction strictly between 0 and 1. *)
Theorem SOC_lookup_cases (soc : float) :
  let c := soc * int_to_float (battery_model_table_SOCs - 1) in
  (0 <= soc /\ soc < 1 ->
     exists i, SOC_lookup soc = Ok (c, i) /\
               (0 <= i <= battery_model_table_SOCs - 2)%Z /\
               0 <= c - int_to_float i /\ c - int_to_float i < 1) /\
  (soc = 1 ->
     SOC_lookup soc = Ok (int_to_float (battery_model_table_SOCs - 1),
                          (battery_model_table_SOCs - 1)%Z)) /\
  (castable c -> lit 1.1 <= soc ->
     SOC_lookup soc = Ok (int_to_float (battery_model_table_SOCs - 1),
                          (battery_model_table_SOCs - 1)%Z)) /\
  (castable c -> soc <= lit (-0.1) ->
     SOC_lookup soc = Ok (int_to_float 0, 0%Z)) /\
  (1 < soc /\ soc < lit 1.1 ->
     SOC_lookup soc = Ok (c, (battery_model_table_SOCs - 1)%Z) /\
     0 < c - int_to_float (battery_model_table_SOCs - 1) /\
     c - int_to_float (battery_model_table_SOCs - 1) < 1).
Proof.
  intros c. pose proof (this_coordinate soc) as Ec.
  pose proof (SOC_lookup_unfold soc) as Hun.
  cbv zeta in Hun. fold c in Ec, Hun. clearbody c.
  repeat split.
  - (* inside the table *)
    intros [Hlo Hhi]. unfold Qcle, Qclt in Hlo, Hhi. simpl in Hlo, Hhi.
    assert (Hc0 : 0 <= c) by (change (0 <= c)%Q; lra).
    destruct (truncate_bounds_nonneg c Hc0) as (Hz & Hle & Hlt).
    assert (Hz9 : (truncate c <= 9)%Z).
    { assert (A : (inject_Z (truncate c) < inject_Z 10)%Q)
        by (change (inject_Z 10) with 10%Q; lra).
      rewrite <- Zlt_Qlt in A. lia. }
    exists (truncate c).
    rewrite Hun by (apply castable_small; lra).
    replace (truncate c <? 0)%Z with false by (symmetry; apply Z.ltb_ge; lia).
    replace (truncate c >=? battery_model_table_SOCs)%Z with false
      by (symmetry; rewrite Z.geb_leb; apply Z.leb_gt;
          unfold battery_model_table_SOCs; lia).
    split; [reflexivity|].
    split; [unfold battery_model_table_SOCs; lia|].
    pose proof (this_int_to_float (truncate c)) as Ei.
    split; qc_to_q; lra.
  - (* exactly full *)
    intros ->.
    assert (E : c = int_to_float (battery_model_table_SOCs - 1)).
    { apply Qc_is_canon. rewrite Ec. reflexivity. }
    subst c.
    rewrite Hun by (vm_compute; split; discriminate).
    reflexivity.
  - (* above the upper guard *)
    intros Hc Hsoc. unfold Qcle in Hsoc. simpl in Hsoc.
    rewrite (Hun Hc).
    assert (Ht : (11 <= truncate c)%Z).
    { apply truncate_ge; [lia|]. change (inject_Z 11) with 11%Q. lra. }
    replace (truncate c <? 0)%Z with false by (symmetry; apply Z.ltb_ge; lia).
    replace (truncate c >=? battery_model_table_SOCs)%Z with true
      by (symmetry; rewrite Z.geb_leb; apply Z.leb_le;
          unfold battery_model_table_SOCs; lia).
    reflexivity.
  - (* below the lower guard *)
    intros Hc Hsoc. unfold Qcle in Hsoc. simpl in Hsoc.
    rewrite (Hun Hc).
    assert (Ht : (truncate c <= -1)%Z).
    { apply truncate_le_neg; [lia|]. change (inject_Z (-1)) with (-1)%Q. lra. }
    replace (truncate c <? 0)%Z with true by (symmetry; apply Z.ltb_lt; lia).
    reflexivity.
  - (* between full and the upper guard: the lookup *)
    destruct H as [Hlo Hhi]. unfold Qclt in Hlo, Hhi. simpl in Hlo, Hhi.
    assert (Ht : truncate c = 10%Z).
    { apply truncate_is_nonneg; [lia| |]; change (inject_Z 10) with 10%Q; lra. }
    rewrite Hun by (apply castable_small; lra).
    rewrite Ht. reflexivity.
  - destruct H as [Hlo Hhi]. unfold Qclt in Hlo, Hhi. simpl in Hlo, Hhi.
    pose proof (this_int_to_float (battery_model_table_SOCs - 1)) as Ei.
    change (inject_Z (battery_model_table_SOCs - 1)) with 10%Q in Ei.
    qc_to_q; lra.
  - destruct H as [Hlo Hhi]. unfold Qclt in Hlo, Hhi. simpl in Hlo, Hhi.
    pose proof (this_int_to_float (battery_model_table_SOCs - 1)) as Ei.
    change (inject_Z (battery_model_table_SOCs - 1)) with 10%Q in Ei.
    qc_to_q; lra.
Qed.

(** ** The temperature scan *)

Lemma T_scan_unfold (t : float) :
  T_scan (Z.to_nat battery_model_table_temps) 0 t =
  if fle (lit (-10.0)) t then
    if fle (lit (-5.0)) t then
      if fle (lit 2.0) t then 3%Z else 2%Z
    else 1%Z
  else 0%Z.
Proof. reflexivity. Qed.

(** The scan stops because its guard fails, not because the unrolling ends. *)
Lemma T_scan_exits (t : float) :
  T_scan_guard (T_scan (Z.to_nat battery_model_table_temps) 0 t) t = false.
Proof.
  rewrite T_scan_unfold.
  destruct (fle (lit (-10.0)) t) eqn:E0; [|exact E0].
  destruct (fle (lit (-5.0)) t) eqn:E1; [|exact E1].
  destruct (fle (lit 2.0) t) eqn:E2; [reflexivity|exact E2].
Qed.

(** More unrolling changes nothing. *)
Lemma T_scan_enough_fuel (t : float) (extra : nat) :
  T_scan (Z.to_nat battery_model_table_temps + extra) 0 t =
  T_scan (Z.to_nat battery_model_table_temps) 0 t.
Proof.
  rewrite T_scan_unfold.
  change (Z.to_nat battery_model_table_temps + extra)%nat
    with (S (S (S (S extra)))).
  cbn [T_scan].
  change (T_scan_guard 0 t) with (fle (lit (-10.0)) t).
  destruct (fle (lit (-10.0)) t); [|reflexivity].
  change (T_scan_guard (0 + 1) t) with (fle (lit (-5.0)) t).
  destruct (fle (lit (-5.0)) t); [|reflexivity].
  change (T_scan_guard (0 + 1 + 1) t) with (fle (lit 2.0) t).
  destruct (fle (lit 2.0) t); [|reflexivity].
  destruct extra; reflexivity.
Qed.

Lemma fle_true (x y : float) : fle x y = true <-> x <= y.
Proof. unfold fle, Qcle. apply Qle_bool_iff. Qed.

Lemma fle_false (x y : float) : fle x y = false <-> y < x.
Proof.
  unfold Qclt. rewrite <- not_true_iff_false, fle_true. unfold Qcle.
  split; [apply Qnot_le_lt | apply Qlt_not_le].
Qed.

Lemma T_lookup_below_second_bucket (t : float) :
  t < lit (-10.0) ->
  T_lookup t =
  Ok (int_to_float 0 + (t - lit (-20.0)) / (lit (-10.0) - lit (-20.0)), 0%Z).
Proof.
  intros H. unfold T_lookup. cbv zeta. rewrite T_scan_unfold.
  apply fle_false in H. rewrite H. reflexivity.
Qed.

Lemma T_lookup_from_last_bucket (t : float) :
  lit 2.0 <= t -> T_lookup t = Ok (int_to_float 0, 3%Z).
Proof.
  intros H. unfold T_lookup. cbv zeta. rewrite T_scan_unfold.
  assert (H2 : fle (lit 2.0) t = true) by (apply fle_true; exact H).
  assert (H1 : fle (lit (-5.0)) t = true).
  { apply fle_true. apply Qcle_trans with (lit 2.0); [|exact H].
    vm_compute. discriminate. }
  assert (H0 : fle (lit (-10.0)) t = true).
  { apply fle_true. apply Qcle_trans with (lit 2.0); [|exact H].
    vm_compute. discriminate. }
  rewrite H0, H1, H2. reflexivity.
Qed.

Lemma T_lookup_Ok (t : float) :
  exists tn ti, T_lookup t = Ok (tn, ti) /\
                (0 <= ti <= battery_model_table_temps - 1)%Z /\
                (t < lit 2.0 -> (ti <= battery_model_table_temps - 2)%Z).
Proof.
  unfold T_lookup. cbv zeta. rewrite T_scan_unfold.
  destruct (fle (lit (-10.0)) t) eqn:E0;
    [destruct (fle (lit (-5.0)) t) eqn:E1;
       [destruct (fle (lit 2.0) t) eqn:E2|]|];
    eexists; eexists; (split; [reflexivity|]);
    (split; [unfold battery_model_table_temps; lia|]); intros H;
    try (unfold battery_model_table_temps; lia).
  apply fle_true in E2. exfalso. eapply Qclt_not_le; eassumption.
Qed.

(** ** The resolver across the temperature axis (C1) *)

Lemma interpolate_all_inside (T_number : float) (T_index : Z)
    (SOC_number : float) (SOC_index : Z) :
  (0 <= T_index <= battery_model_table_temps - 2)%Z ->
  (0 <= SOC_index <= battery_model_table_SOCs - 1)%Z ->
  exists I T,
    blend_all T_index SOC_number SOC_index = Ok I /\
    blend_all (T_index + 1) SOC_number SOC_index = Ok T /\
    interpolate_all T_number T_index SOC_number SOC_index =
    Ok (lerp I T (T_number - int_to_float T_index)).
Proof.
  intros HT HS.
  destruct calibration_tables_dims as (DEm & DR0 & DR1 & DC1).
  destruct (interpolate_inside battery_model_Em DEm T_number T_index
              SOC_number SOC_index HT HS) as (Ie & Te & HIe & HTe & He).
  destruct (interpolate_inside battery_model_R0 DR0 T_number T_index
              SOC_number SOC_index HT HS) as (I0 & T0 & HI0 & HT0 & H0).
  destruct (interpolate_inside battery_model_R1 DR1 T_number T_index
              SOC_number SOC_index HT HS) as (I1 & T1 & HI1 & HT1 & H1).
  destruct (interpolate_inside battery_model_C1 DC1 T_number T_index
              SOC_number SOC_index HT HS) as (Ic & Tc & HIc & HTc & Hc).
  exists {| Em := Ie; R0 := I0; R1 := I1; C1 := Ic |},
         {| Em := Te; R0 := T0; R1 := T1; C1 := Tc |}.
  unfold blend_all, interpolate_all.
  rewrite HIe, HI0, HI1, HIc, HTe, HT0, HT1, HTc, He, H0, H1, Hc.
  repeat split; reflexivity.
Qed.

Lemma lerp_zero (a b : battery_model_parameters) (x : float) :
  lerp a b (x - x) = a.
Proof.
  destruct a as [e r0 r1 c1]. unfold lerp; simpl.
  f_equal; ring.
Qed.

Lemma parameters_at_bucket_inside (soc : float) (T_index : Z)
    (SOC_number : float) (SOC_index : Z) :
  SOC_lookup soc = Ok (SOC_number, SOC_index) ->
  (0 <= T_index <= battery_model_table_temps - 2)%Z ->
  parameters_at_bucket soc T_index = blend_all T_index SOC_number SOC_index /\
  exists p, parameters_at_bucket soc T_index = Ok p.
Proof.
  intros HS HT. unfold parameters_at_bucket. rewrite HS.
  cbn [bind outcome_Monad].
  destruct (interpolate_all_inside (int_to_float T_index) T_index
              SOC_number SOC_index HT (SOC_lookup_Ok soc _ _ HS))
    as (I & T & HI & _ & ->).
  rewrite lerp_zero, HI. split; [reflexivity|]. exists I. reflexivity.
Qed.

(** Below the last temperature bucket, and with a castable state-of-charge
    coordinate, the resolver has a value. *)
Lemma get_parameters_defined (b : battery_model) :
  castable (SOC b * int_to_float (battery_model_table_SOCs - 1)) ->
  cellT b < lit 2.0 ->
  exists p, battery_model_get_parameters b = Ok (p, b).
Proof.
  intros Hc Ht.
  pose proof (SOC_lookup_unfold (SOC b) Hc) as HS.
  match type of HS with _ = Ok ?r => destruct r as [sn si] eqn:Er end.
  pose proof (SOC_lookup_Ok _ _ _ HS) as Hsi.
  destruct (T_lookup_Ok (cellT b)) as (tn & ti & HT & Hti & Hti2).
  specialize (Hti2 Ht).
  assert (Hti' : (0 <= ti <= battery_model_table_temps - 2)%Z) by lia.
  destruct (interpolate_all_inside tn ti sn si Hti' Hsi)
    as (I & T & _ & _ & Hall).
  eexists. apply parameters_at_Ok. unfold parameters_at.
  rewrite HS, HT. cbn [bind outcome_Monad]. exact Hall.
Qed.

(** From the last temperature bucket on, the resolver reads past the
    tables. *)
Lemma get_parameters_above_range (b : battery_model) :
  castable (SOC b * int_to_float (battery_model_table_SOCs - 1)) ->
  lit 2.0 <= cellT b ->
  battery_model_get_parameters b = UB OutOfBounds.
Proof.
  intros Hc Ht. rewrite get_parameters_lift. unfold parameters_at.
  rewrite (SOC_lookup_unfold (SOC b) Hc).
  match goal with |- context [Ok ?r] => destruct r as [sn si] end.
  rewrite (T_lookup_from_last_bucket (cellT b) Ht).
  cbn [bind outcome_Monad]. unfold interpolate_all.
  change 3%Z with (battery_model_table_temps - 1)%Z.
  rewrite interpolate_last_row. reflexivity.
Qed.

(** C1, as the code has it: for a temperature below -20 deg C the resolver
    uses the floor index 0 and the negative coordinate
    [x = (cellT - (-20)) / ((-10) - (-20))], so every parameter is
    [p0 + (p1 - p0) * x], the line through its values [p0] and [p1] at the
    two lowest buckets continued below the lowest one.  For a temperature at
    or above +2 deg C the scan stops at the last bucket. *)
Theorem temperature_outside_calibrated_range (b : battery_model) :
  castable (SOC b * int_to_float (battery_model_table_SOCs - 1)) ->
  (cellT b < lit (-20.0) ->
     let x := (cellT b - lit (-20.0)) / (lit (-10.0) - lit (-20.0)) in
     x < 0 /\
     T_lookup (cellT b) = Ok (int_to_float 0 + x, 0%Z) /\
     exists p p0 p1,
       battery_model_get_parameters b = Ok (p, b) /\
       parameters_at_bucket (SOC b) 0 = Ok p0 /\
       parameters_at_bucket (SOC b) 1 = Ok p1 /\
       p = lerp p0 p1 x) /\
  (lit 2.0 <= cellT b ->
     exists T_number,
       T_lookup (cellT b) =
       Ok (T_number, (battery_model_table_temps - 1)%Z)).
Proof.
  intros Hc. split.
  - intros Ht x.
    assert (Hx : x < 0).
    { subst x.
      replace (lit (-10.0) - lit (-20.0)) with (lit 10)
        by (apply Qc_decomp; reflexivity).
      qc_to_q.
      assert (E : (/ 10 == 1 # 10)%Q) by reflexivity.
      rewrite E. lra. }
    assert (Ht' : cellT b < lit (-10.0)).
    { eapply Qclt_trans; [exact Ht|]. vm_compute. reflexivity. }
    pose proof (T_lookup_below_second_bucket (cellT b) Ht') as HT.
    fold x in HT.
    split; [exact Hx|]. split; [exact HT|].
    pose proof (SOC_lookup_unfold (SOC b) Hc) as HS.
    match type of HS with _ = Ok ?r => destruct r as [sn si] eqn:Er end.
    pose proof (SOC_lookup_Ok _ _ _ HS) as Hsi.
    assert (H0 : (0 <= 0 <= battery_model_table_temps - 2)%Z)
      by (unfold battery_model_table_temps; lia).
    assert (H1 : (0 <= 1 <= battery_model_table_temps - 2)%Z)
      by (unfold battery_model_table_temps; lia).
    destruct (interpolate_all_inside (int_to_float 0 + x) 0 sn si H0 Hsi)
      as (I & T & HI & HT1 & Hall).
    destruct (parameters_at_bucket_inside (SOC b) 0 sn si HS H0) as [Hb0 _].
    destruct (parameters_at_bucket_inside (SOC b) 1 sn si HS H1) as [Hb1 _].
    exists (lerp I T (int_to_float 0 + x - int_to_float 0)), I, T.
    split.
    { apply parameters_at_Ok. unfold parameters_at. rewrite HS, HT.
      cbn [bind outcome_Monad]. exact Hall. }
    split; [rewrite Hb0; exact HI|].
    split; [rewrite Hb1; exact HT1|].
    f_equal. ring.
  - intros Ht. exists (int_to_float 0).
    apply T_lookup_from_last_bucket. exact Ht.
Qed.

(** ** The last state-of-charge column (C10) *)

Lemma interpolate_all_last_column (T_number : float) (T_index : Z)
    (s s' : float) :
  interpolate_all T_number T_index s (battery_model_table_SOCs - 1) =
  interpolate_all T_number T_index s' (battery_model_table_SOCs - 1).
Proof.
  unfold interpolate_all.
  rewrite (interpolate_last_column battery_model_Em T_number T_index s s'),
          (interpolate_last_column battery_model_R0 T_number T_index s s'),
          (interpolate_last_column battery_model_R1 T_number T_index s s'),
          (interpolate_last_column battery_model_C1 T_number T_index s s').
  reflexivity.
Qed.

Lemma SOC_lookup_full (soc : float) :
  1 <= soc ->
  castable (soc * int_to_float (battery_model_table_SOCs - 1)) ->
  exists c, SOC_lookup soc = Ok (c, (battery_model_table_SOCs - 1)%Z).
Proof.
  intros Hsoc Hc. rewrite (SOC_lookup_unfold soc Hc).
  pose proof (this_coordinate soc) as Ec.
  set (c := soc * int_to_float (battery_model_table_SOCs - 1)) in *.
  clearbody c. unfold Qcle in Hsoc. simpl in Hsoc.
  assert (Ht : (10 <= truncate c)%Z).
  { apply truncate_ge; [lia|]. change (inject_Z 10) with 10%Q. lra. }
  replace (truncate c <? 0)%Z with false by (symmetry; apply Z.ltb_ge; lia).
  destruct (truncate c >=? battery_model_table_SOCs)%Z eqn:E.
  - eexists; reflexivity.
  - rewrite Z.geb_leb in E. apply Z.leb_gt in E.
    unfold battery_model_table_SOCs in E.
    replace (truncate c) with (battery_model_table_SOCs - 1)%Z
      by (unfold battery_model_table_SOCs; lia).
    eexists; reflexivity.
Qed.

(** C10: with the state-of-charge index at the last column, the "next"
    column is the same column, both blends are the stored last-column
    values [II] and [TI], and the interpolation does not depend on the
    state-of-charge coordinate [s]; so at one temperature every state of
    charge of 1 or more resolves to the same outcome (as long as the cast
    of the coordinate is defined), and two such batteries below the last
    temperature bucket resolve the same parameters. *)
Theorem last_column_ignores_SOC_coordinate :
  (forall (table : battery_model_table) (T_number : float) (T_index : Z),
     table_dims_ok table = true ->
     (0 <= T_index <= battery_model_table_temps - 2)%Z ->
     exists II TI,
       table_at table T_index (battery_model_table_SOCs - 1) = Ok II /\
       table_at table (T_index + 1) (battery_model_table_SOCs - 1) = Ok TI /\
       forall s : float,
         battery_model_interpolate table T_number T_index s
                                   (battery_model_table_SOCs - 1) =
         Ok (II + (TI - II) * (T_number - int_to_float T_index))) /\
  (forall soc soc' lookupT : float,
     1 <= soc -> 1 <= soc' ->
     castable (soc * int_to_float (battery_model_table_SOCs - 1)) ->
     castable (soc' * int_to_float (battery_model_table_SOCs - 1)) ->
     parameters_at soc lookupT = parameters_at soc' lookupT) /\
  (forall b b' : battery_model,
     cellT b' = cellT b -> cellT b < lit 2.0 ->
     1 <= SOC b -> 1 <= SOC b' ->
     castable (SOC b * int_to_float (battery_model_table_SOCs - 1)) ->
     castable (SOC b' * int_to_float (battery_model_table_SOCs - 1)) ->
     exists p, battery_model_get_parameters b = Ok (p, b) /\
               battery_model_get_parameters b' = Ok (p, b')).
Proof.
  assert (Hsame : forall soc soc' lookupT : float,
            1 <= soc -> 1 <= soc' ->
            castable (soc * int_to_float (battery_model_table_SOCs - 1)) ->
            castable (soc' * int_to_float (battery_model_table_SOCs - 1)) ->
            parameters_at soc lookupT = parameters_at soc' lookupT).
  { intros soc soc' t Hs Hs' Hc Hc'.
    destruct (SOC_lookup_full soc Hs Hc) as [c HL].
    destruct (SOC_lookup_full soc' Hs' Hc') as [c' HL'].
    destruct (T_lookup_Ok t) as (tn & ti & HT & _).
    unfold parameters_at. rewrite HL, HL', HT. cbn [bind outcome_Monad].
    apply interpolate_all_last_column. }
  split; [|split; [exact Hsame|]].
  - intros table T_number T_index Hd HT.
    assert (HS : (0 <= battery_model_table_SOCs - 1
                    <= battery_model_table_SOCs - 1)%Z) by dims.
    destruct (interpolate_inside table Hd T_number T_index 0
                (battery_model_table_SOCs - 1) HT HS)
      as (I & T & HI & HT' & _).
    rewrite SOC_blend_last_column in HI, HT'.
    exists I, T. repeat split; try assumption.
    intros s. rewrite interpolate_blend, (T_next_of_inside T_index HT),
      !SOC_blend_last_column, HI, HT'. reflexivity.
  - intros b b' ET Ht Hs Hs' Hc Hc'.
    destruct (get_parameters_defined b Hc Ht) as [p Hp].
    exists p. split; [exact Hp|].
    destruct (get_parameters_Ok b b p Hp) as [Hat _].
    apply parameters_at_Ok. rewrite ET.
    rewrite (Hsame (SOC b') (SOC b) (cellT b) Hs' Hs Hc' Hc). exact Hat.
Qed.

(** ** Powers, inverses and quotients *)


(** Bernoulli's inequality, in the form that needs no division. *)
Lemma Qcinv_pos (x : float) : 0 < x -> 0 < / x.
Proof.
  intros H. unfold Qclt, Qcinv in *. cbn [this Q2Qc].
  rewrite (Qred_correct (/ x)). apply Qinv_lt_0_compat. exact H.
Qed.

Lemma Qcdiv_nonneg (x y : float) : 0 <= x -> 0 < y -> 0 <= x / y.
Proof.
  intros Hx Hy. pose proof (Qcinv_pos y Hy) as Hi.
  unfold Qcdiv. set (i := / y) in *. clearbody i. qc_to_q. nra.
Qed.

(** A bounded quantity times a power of a ratio below one falls below
    every positive threshold. *)
(** ** Steps without draw current (C7) *)







(** ** The steps with every division checked *)

Lemma fdiv_Ok (x y : float) : y <> 0 -> fdiv x y = Ok (x / y).
Proof.
  intros H. unfold fdiv. destruct (Qeq_bool y 0) eqn:E; [|reflexivity].
  exfalso. apply H. apply Qc_is_canon. apply Qeq_bool_eq. exact E.
Qed.


(** With its two divisors not zero the checked thermal step is the thermal
    step; with one of them zero it has no value. *)
Lemma thermal_checked_agrees
    (heating_joules specific_heat mass ambientT Rvalue area dt : float)
    (b : battery_model) :
  Rvalue <> 0 -> specific_heat * mass <> 0 ->
  battery_model_thermal_checked heating_joules specific_heat mass
                                ambientT Rvalue area dt b =
  battery_model_thermal heating_joules specific_heat mass
                        ambientT Rvalue area dt b.
Proof.
  intros HR Hcm. unfold battery_model_thermal_checked, battery_model_thermal.
  cbn [bind Sim_Monad]. unfold gets, lift.
  rewrite (fdiv_Ok _ _ HR), (fdiv_Ok _ _ Hcm). reflexivity.
Qed.


(** The same for the electrical step and its three divisors. *)
Lemma electrical_checked_agrees (b b0 : battery_model) (amps dt : float)
    (p : battery_model_parameters) :
  battery_model_get_parameters b = Ok (p, b0) ->
  C1 p <> 0 -> R1 p <> 0 -> capacityAs b <> 0 ->
  battery_model_electrical_checked amps dt b =
  battery_model_electrical amps dt b.
Proof.
  intros H HC HR Hcap. destruct (get_parameters_Ok b b0 p H) as [_ ->].
  unfold battery_model_electrical_checked, battery_model_electrical.
  cbn [bind Sim_Monad]. rewrite H. unfold gets, lift, modify.
  rewrite (fdiv_Ok _ _ HC), (fdiv_Ok _ _ HR).
  cbn [set_C1Q set_SOC capacityAs SOC C1Q cellT].
  rewrite (fdiv_Ok _ _ Hcap). reflexivity.
Qed.


(** ** Evaluation at concrete batteries *)

Lemma full_cold_parameters :
  parameters_at (lit 1.0) (lit (-20.0)) =
  Ok {| Em := lit 4.2; R0 := lit 0.67; R1 := lit 0.85; C1 := lit 596 |}.
Proof. eval_with params_ext. Qed.

Lemma full_cold_get_parameters :
  battery_model_get_parameters full_cold_battery =
  Ok ({| Em := lit 4.2; R0 := lit 0.67; R1 := lit 0.85; C1 := lit 596 |},
      full_cold_battery).
Proof. apply parameters_at_Ok. exact full_cold_parameters. Qed.

Lemma half_frozen_parameters :
  parameters_at (lit 0.5) (lit (-30.0)) =
  Ok {| Em := lit 3.775403; R0 := lit 0.174128; R1 := lit 0.23979;
        C1 := lit (-7080.705) |}.
Proof. eval_with params_ext. Qed.

Lemma half_lowest_bucket :
  parameters_at_bucket (lit 0.5) 0 =
  Ok {| Em := lit 3.8; R0 := lit 0.13; R1 := lit 0.127334; C1 := lit 846 |}.
Proof. eval_with params_ext. Qed.


Lemma slightly_negative_parameters :
  parameters_at (lit (-0.05)) (lit (-20.0)) =
  Ok {| Em := lit 3.425; R0 := lit 0.26; R1 := lit 2.625; C1 := lit 350 |}.
Proof. eval_with params_ext. Qed.

Lemma empty_lowest_bucket :
  parameters_at_bucket (lit 0.0) 0 =
  Ok {| Em := lit 3.5; R0 := lit 0.26; R1 := lit 2; C1 := lit 400 |}.
Proof. eval_with params_ext. Qed.

(** *** C1: below and above the calibrated temperatures *)

(** C1 as stated fails.  At -30 deg C and half charge the resolved open
    circuit voltage is 3.775403 V, not the 3.8 V of the lowest bucket (and
    the resolved capacitance is negative); at +2 deg C the resolver has no
    value at all, because it reads past the tables. *)
Lemma lowest_bucket_not_held_below_range :
  cellT half_frozen_battery < lit (-20.0) /\
  battery_model_get_parameters half_frozen_battery =
    Ok ({| Em := lit 3.775403; R0 := lit 0.174128; R1 := lit 0.23979;
           C1 := lit (-7080.705) |}, half_frozen_battery) /\
  parameters_at_bucket (SOC half_frozen_battery) 0 =
    Ok {| Em := lit 3.8; R0 := lit 0.13; R1 := lit 0.127334;
          C1 := lit 846 |} /\
  lit 3.775403 <> lit 3.8 /\
  lit 2.0 <= cellT warm_battery /\
  battery_model_get_parameters warm_battery = UB OutOfBounds.
Proof.
  split; [vm_compute; reflexivity|].
  split; [apply parameters_at_Ok; exact half_frozen_parameters|].
  split; [exact half_lowest_bucket|].
  split; [intros H; apply (f_equal this) in H; vm_compute in H;
          discriminate|].
  split; [vm_compute; discriminate|].
  vm_compute. reflexivity.
Qed.

(** The extrapolation at the half charged battery at -30 deg C. *)
Lemma temperature_outside_calibrated_range_witness :
  exists p p0 p1,
    battery_model_get_parameters half_frozen_battery =
      Ok (p, half_frozen_battery) /\
    parameters_at_bucket (SOC half_frozen_battery) 0 = Ok p0 /\
    parameters_at_bucket (SOC half_frozen_battery) 1 = Ok p1 /\
    p = lerp p0 p1 ((cellT half_frozen_battery - lit (-20.0))
                    / (lit (-10.0) - lit (-20.0))).
Proof.
  assert (Hc : castable (SOC half_frozen_battery
                         * int_to_float (battery_model_table_SOCs - 1)))
    by (vm_compute; split; discriminate).
  assert (Ht : cellT half_frozen_battery < lit (-20.0))
    by (vm_compute; reflexivity).
  destruct (temperature_outside_calibrated_range half_frozen_battery Hc)
    as [Hlow _].
  destruct (Hlow Ht) as (_ & _ & H). exact H.
Defined.

(** *** C4: the state-of-charge guards *)

(** C4 as stated fails.  At [soc = -0.05] the coordinate is -0.5 with index
    0: nothing is clamped, and the parameters are extrapolated below the
    first column (3.425 V against the 3.5 V stored there).  At [soc = 1.05]
    the coordinate is 10.5 with index 10: the fraction is not zero. *)
Lemma SOC_lookup_not_clamped_near_edges :
  lit (-0.05) < 0 /\
  SOC_lookup (lit (-0.05)) = Ok (lit (-0.5), 0%Z) /\
  lit (-0.5) - int_to_float 0 <> 0 /\
  parameters_at (lit (-0.05)) (lit (-20.0)) =
    Ok {| Em := lit 3.425; R0 := lit 0.26; R1 := lit 2.625;
          C1 := lit 350 |} /\
  parameters_at_bucket (lit 0.0) 0 =
    Ok {| Em := lit 3.5; R0 := lit 0.26; R1 := lit 2; C1 := lit 400 |} /\
  1 < lit 1.05 /\
  SOC_lookup (lit 1.05) = Ok (lit 10.5, 10%Z) /\
  lit 10.5 - int_to_float 10 <> 0.
Proof.
  split; [vm_compute; reflexivity|].
  split; [vm_compute; apply Ok_coordinate; reflexivity|].
  split; [intros H; apply (f_equal this) in H; vm_compute in H;
          discriminate|].
  split; [exact slightly_negative_parameters|].
  split; [exact empty_lowest_bucket|].
  split; [vm_compute; reflexivity|].
  split; [vm_compute; apply Ok_coordinate; reflexivity|].
  intros H; apply (f_equal this) in H; vm_compute in H; discriminate.
Qed.

(** The lookup at 55 %, 150 % and -50 % of charge. *)
Lemma SOC_lookup_cases_witness :
  (exists i, SOC_lookup (lit 0.55) =
             Ok (lit 0.55 * int_to_float (battery_model_table_SOCs - 1), i) /\
             (0 <= i <= battery_model_table_SOCs - 2)%Z /\
             0 <= lit 0.55 * int_to_float (battery_model_table_SOCs - 1)
                  - int_to_float i /\
             lit 0.55 * int_to_float (battery_model_table_SOCs - 1)
               - int_to_float i < 1) /\
  SOC_lookup (lit 1.5) = Ok (int_to_float (battery_model_table_SOCs - 1),
                             (battery_model_table_SOCs - 1)%Z) /\
  SOC_lookup (lit (-0.5)) = Ok (int_to_float 0, 0%Z).
Proof.
  split.
  - destruct (SOC_lookup_cases (lit 0.55)) as (H & _).
    apply H. split; [vm_compute; discriminate | vm_compute; reflexivity].
  - split.
    + destruct (SOC_lookup_cases (lit 1.5)) as (_ & _ & H & _).
      apply H; [vm_compute; split; discriminate | vm_compute; discriminate].
    + destruct (SOC_lookup_cases (lit (-0.5))) as (_ & _ & _ & H & _).
      apply H; [vm_compute; split; discriminate | vm_compute; discriminate].
Defined.

(** *** C7: relaxation and the size of the time step *)



(** *** C3, C5, C6: one discharge step of a full, cold battery *)

(** A 12 s step at 1.8 A. *)
Lemma electrical_step_witness :
  battery_model_electrical (lit 1.8) (lit 12) full_cold_battery =
  Ok ((lit 0.67 * lit 1.8 * lit 1.8
       + lit 0 / lit 596 * (lit 0 / lit 596 / lit 0.85)) * lit 12,
      {| capacityAs := lit 6480;
         SOC := lit 1.0 - lit 1.8 * lit 12 / lit 6480;
         C1Q := lit 0 + (lit 1.8 - lit 0 / lit 596 / lit 0.85) * lit 12;
         cellT := lit (-20.0) |}).
Proof.
  apply (electrical_step full_cold_battery full_cold_battery
           (lit 1.8) (lit 12)
           {| Em := lit 4.2; R0 := lit 0.67; R1 := lit 0.85;
              C1 := lit 596 |}).
  - vm_compute. reflexivity.
  - exact full_cold_get_parameters.
Defined.

(** The terminal voltage at 1.8 A: 4.2 - 0 - 0.67 * 1.8 volts. *)
Lemma voltage_formula_witness :
  battery_model_voltage (lit 1.8) full_cold_battery =
  Ok (lit 4.2 - lit 0 / lit 596 - lit 0.67 * lit 1.8, full_cold_battery).
Proof.
  exact (voltage_formula full_cold_battery full_cold_battery (lit 1.8)
           {| Em := lit 4.2; R0 := lit 0.67; R1 := lit 0.85;
              C1 := lit 596 |} full_cold_get_parameters).
Defined.




(** *** C8: thermal equilibrium *)



(** *** C10: full and over-full batteries *)

(** The last column of the voltage table, and a battery charged to 125 %. *)
Lemma last_column_ignores_SOC_coordinate_witness :
  (exists II TI,
     table_at battery_model_Em 0 (battery_model_table_SOCs - 1) = Ok II /\
     table_at battery_model_Em (0 + 1) (battery_model_table_SOCs - 1)
       = Ok TI /\
     forall s : float,
       battery_model_interpolate battery_model_Em (lit 0.5) 0 s
                                 (battery_model_table_SOCs - 1) =
       Ok (II + (TI - II) * (lit 0.5 - int_to_float 0))) /\
  (exists p,
     battery_model_get_parameters full_cold_battery =
       Ok (p, full_cold_battery) /\
     battery_model_get_parameters overfull_battery =
       Ok (p, overfull_battery)).
Proof.
  destruct last_column_ignores_SOC_coordinate as (HA & _ & HB).
  split.
  - apply HA; [reflexivity | vm_compute; split; discriminate].
  - apply HB.
    + reflexivity.
    + vm_compute. reflexivity.
    + vm_compute. discriminate.
    + vm_compute. discriminate.
    + vm_compute. split; discriminate.
    + vm_compute. split; discriminate.
Defined.

(** * Further properties of the code *)

(** ** Interpolation on and between grid points *)

Lemma blend_between (lo hi a b u : float) :
  lo <= a -> a <= hi -> lo <= b -> b <= hi -> 0 <= u -> u <= 1 ->
  lo <= a + (b - a) * u /\ a + (b - a) * u <= hi.
Proof. intros. split; qc_to_q; nra. Qed.

Section TableValues.

Variable table : battery_model_table.
Hypothesis dims_ok : table_dims_ok table = true.

Lemma interpolate_reads (T_number : float) (T_index : Z)
    (SOC_number : float) (SOC_index : Z) :
  (0 <= T_index <= battery_model_table_temps - 2)%Z ->
  (0 <= SOC_index <= battery_model_table_SOCs - 1)%Z ->
  exists II IN TI TN,
    table_at table T_index SOC_index = Ok II /\
    table_at table T_index (SOC_next_of SOC_index) = Ok IN /\
    table_at table (T_index + 1) SOC_index = Ok TI /\
    table_at table (T_index + 1) (SOC_next_of SOC_index) = Ok TN /\
    battery_model_interpolate table T_number T_index SOC_number SOC_index =
    Ok (let I := II + (IN - II) * (SOC_number - int_to_float SOC_index) in
        let T := TI + (TN - TI) * (SOC_number - int_to_float SOC_index) in
        I + (T - I) * (T_number - int_to_float T_index)).
Proof.
  intros HT HS.
  pose proof (SOC_next_of_range SOC_index HS) as HN.
  destruct (table_at_inside table dims_ok T_index SOC_index)
    as [II HII]; [dims|dims|].
  destruct (table_at_inside table dims_ok T_index (SOC_next_of SOC_index))
    as [IN HIN]; [dims|exact HN|].
  destruct (table_at_inside table dims_ok (T_index + 1) SOC_index)
    as [TI HTI]; [dims|dims|].
  destruct (table_at_inside table dims_ok (T_index + 1)
              (SOC_next_of SOC_index)) as [TN HTN]; [dims|exact HN|].
  exists II, IN, TI, TN. repeat (split; [assumption|]).
  unfold battery_model_interpolate.
  rewrite (T_next_of_inside T_index HT), HII, HIN, HTI, HTN. reflexivity.
Qed.

Lemma interpolate_grid (T_index SOC_index : Z) :
  (0 <= T_index <= battery_model_table_temps - 2)%Z ->
  (0 <= SOC_index <= battery_model_table_SOCs - 1)%Z ->
  battery_model_interpolate table (int_to_float T_index) T_index
                            (int_to_float SOC_index) SOC_index =
  table_at table T_index SOC_index.
Proof.
  intros HT HS.
  destruct (interpolate_reads (int_to_float T_index) T_index
              (int_to_float SOC_index) SOC_index HT HS)
    as (II & IN & TI & TN & HII & _ & _ & _ & ->).
  rewrite HII. cbv zeta. apply f_equal. ring.
Qed.

Lemma interpolate_between (T_number : float) (T_index : Z)
    (SOC_number : float) (SOC_index : Z) :
  (0 <= T_index <= battery_model_table_temps - 2)%Z ->
  (0 <= SOC_index <= battery_model_table_SOCs - 1)%Z ->
  0 <= SOC_number - int_to_float SOC_index ->
  SOC_number - int_to_float SOC_index <= 1 ->
  0 <= T_number - int_to_float T_index ->
  T_number - int_to_float T_index <= 1 ->
  exists II IN TI TN v,
    table_at table T_index SOC_index = Ok II /\
    table_at table T_index (SOC_next_of SOC_index) = Ok IN /\
    table_at table (T_index + 1) SOC_index = Ok TI /\
    table_at table (T_index + 1) (SOC_next_of SOC_index) = Ok TN /\
    battery_model_interpolate table T_number T_index SOC_number SOC_index =
      Ok v /\
    forall lo hi : float,
      lo <= II -> II <= hi -> lo <= IN -> IN <= hi ->
      lo <= TI -> TI <= hi -> lo <= TN -> TN <= hi ->
      lo <= v /\ v <= hi.
Proof.
  intros HT HS Hu0 Hu1 Hw0 Hw1.
  destruct (interpolate_reads T_number T_index SOC_number SOC_index HT HS)
    as (II & IN & TI & TN & HII & HIN & HTI & HTN & Hv).
  exists II, IN, TI, TN. eexists.
  repeat (split; [eassumption|]).
  cbv zeta. intros lo hi ? ? ? ? ? ? ? ?.
  destruct (blend_between lo hi II IN (SOC_number - int_to_float SOC_index))
    as [? ?]; try assumption.
  destruct (blend_between lo hi TI TN (SOC_number - int_to_float SOC_index))
    as [? ?]; try assumption.
  apply blend_between; assumption.
Qed.

Lemma table_within_at (lo hi : float) (T S : Z) (x : float) :
  table_within lo hi table = true ->
  table_at table T S = Ok x -> lo <= x /\ x <= hi.
Proof.
  unfold table_within, table_at, array_at. cbn [bind outcome_Monad].
  intros Hw.
  destruct ((0 <=? T)%Z && (T <? battery_model_table_temps)%Z);
    [|discriminate].
  destruct (nth_error (values table) (Z.to_nat T)) as [row|] eqn:Er;
    [|discriminate].
  destruct ((0 <=? S)%Z && (S <? battery_model_table_SOCs)%Z);
    [|discriminate].
  destruct (nth_error row (Z.to_nat S)) as [y|] eqn:Ey; [|discriminate].
  intros E; inversion E; subst y.
  rewrite forallb_forall in Hw.
  specialize (Hw row (nth_error_In _ _ Er)).
  rewrite forallb_forall in Hw.
  specialize (Hw x (nth_error_In _ _ Ey)).
  apply andb_true_iff in Hw as [Hlo Hhi].
  split; apply fle_true; assumption.
Qed.

End TableValues.

(** ** The coordinates inside the calibrated range *)

Lemma Qc_mult_inv_Q (d : float) : 0 < d -> (d * (/ d)%Qc == 1)%Q.
Proof.
  intros Hd.
  assert (E : d * / d = 1).
  { apply Qcmult_inv_r. intros Hz. rewrite Hz in Hd. revert Hd.
    vm_compute. discriminate. }
  rewrite <- (Qred_correct (d * (/ d)%Qc)).
  change (this (d * / d) == this 1)%Q. rewrite E. reflexivity.
Qed.

Lemma fraction_bounds (t a b : float) :
  a <= t -> t < b ->
  0 <= (t - a) / (b - a) /\ (t - a) / (b - a) < 1.
Proof.
  intros Ha Hb.
  assert (Hd : 0 < b - a) by (qc_to_q; lra).
  pose proof (Qcinv_pos (b - a) Hd) as Hi.
  pose proof (Qc_mult_inv_Q (b - a) Hd) as Hone.
  unfold Qcdiv. set (d := b - a) in *.
  assert (Ed : (d == b - a)%Q).
  { subst d. unfold Qcminus, Qcplus, Qcopp. cbn [this Q2Qc].
    rewrite !Qred_correct. reflexivity. }
  clearbody d. set (i := / d) in *. clearbody i.
  split; qc_to_q; nra.
Qed.

(** The temperature coordinate between the first and the last bucket. *)
Lemma T_lookup_inside (t : float) :
  lit (-20.0) <= t -> t < lit 2.0 ->
  exists (ti : Z) (last next : float),
    (0 <= ti <= battery_model_table_temps - 2)%Z /\
    array_at battery_model_table_temps battery_model_temperatures ti
      = Ok last /\
    array_at battery_model_table_temps battery_model_temperatures (ti + 1)
      = Ok next /\
    last <= t /\ t < next /\
    T_lookup t = Ok (int_to_float ti + (t - last) / (next - last), ti).
Proof.
  intros Hlo Hhi. unfold T_lookup. cbv zeta. rewrite T_scan_unfold.
  destruct (fle (lit (-10.0)) t) eqn:E0;
    [destruct (fle (lit (-5.0)) t) eqn:E1|].
  - apply fle_false in Hhi. rewrite Hhi. apply fle_false in Hhi.
    apply fle_true in E1.
    exists 2%Z, (lit (-5.0)), (lit 2.0).
    repeat split; try reflexivity; try assumption; dims.
  - apply fle_true in E0. apply fle_false in E1.
    exists 1%Z, (lit (-10.0)), (lit (-5.0)).
    repeat split; try reflexivity; try assumption; dims.
  - apply fle_false in E0.
    exists 0%Z, (lit (-20.0)), (lit (-10.0)).
    repeat split; try reflexivity; try assumption; dims.
Qed.

(** The state-of-charge coordinate between empty and full. *)
Lemma SOC_lookup_inside (soc : float) :
  0 <= soc -> soc <= 1 ->
  exists (c : float) (i : Z),
    SOC_lookup soc = Ok (c, i) /\
    c = soc * int_to_float (battery_model_table_SOCs - 1) /\
    (0 <= i <= battery_model_table_SOCs - 1)%Z /\
    0 <= c - int_to_float i /\ c - int_to_float i < 1.
Proof.
  intros Hlo Hhi.
  pose proof (this_coordinate soc) as Ec.
  pose proof (SOC_lookup_unfold soc) as Hun. cbv zeta in Hun.
  set (c := soc * int_to_float (battery_model_table_SOCs - 1)) in *.
  clearbody c.
  unfold Qcle in Hlo, Hhi. simpl in Hlo, Hhi.
  assert (Hc0 : 0 <= c) by (change (0 <= c)%Q; lra).
  destruct (truncate_bounds_nonneg c Hc0) as (Hz & Hle & Hlt).
  assert (Hz10 : (truncate c <= 10)%Z).
  { assert (A : (inject_Z (truncate c) < inject_Z 11)%Q)
      by (change (inject_Z 11) with 11%Q; lra).
    rewrite <- Zlt_Qlt in A. lia. }
  exists c, (truncate c).
  rewrite Hun by (apply castable_small; lra).
  replace (truncate c <? 0)%Z with false by (symmetry; apply Z.ltb_ge; lia).
  replace (truncate c >=? battery_model_table_SOCs)%Z with false
    by (symmetry; rewrite Z.geb_leb; apply Z.leb_gt; dims).
  split; [reflexivity|]. split; [reflexivity|].
  split; [dims|].
  pose proof (this_int_to_float (truncate c)) as Ei.
  split; qc_to_q; lra.
Qed.

(** ** The parameters inside the calibrated range *)

Lemma calibration_tables_within :
  table_within (lit 3.5) (lit 4.2) battery_model_Em = true /\
  table_within (lit 0.014168) (lit 0.67) battery_model_R0 = true /\
  table_within (lit 0.003253) (lit 2) battery_model_R1 = true /\
  table_within (lit 0.262732) (lit 50759.86) battery_model_C1 = true.
Proof. repeat split; vm_compute; reflexivity. Qed.

Lemma interpolate_within (table : battery_model_table) (lo hi : float)
    (T_number : float) (T_index : Z) (SOC_number : float) (SOC_index : Z) :
  table_dims_ok table = true ->
  table_within lo hi table = true ->
  (0 <= T_index <= battery_model_table_temps - 2)%Z ->
  (0 <= SOC_index <= battery_model_table_SOCs - 1)%Z ->
  0 <= SOC_number - int_to_float SOC_index ->
  SOC_number - int_to_float SOC_index <= 1 ->
  0 <= T_number - int_to_float T_index ->
  T_number - int_to_float T_index <= 1 ->
  exists v,
    battery_model_interpolate table T_number T_index SOC_number SOC_index =
      Ok v /\ lo <= v /\ v <= hi.
Proof.
  intros Hd Hw HT HS Hu0 Hu1 Hw0 Hw1.
  destruct (interpolate_between table Hd T_number T_index SOC_number
              SOC_index HT HS Hu0 Hu1 Hw0 Hw1)
    as (II & IN & TI & TN & v & HII & HIN & HTI & HTN & Hv & Hb).
  exists v. split; [exact Hv|].
  destruct (table_within_at table lo hi _ _ _ Hw HII).
  destruct (table_within_at table lo hi _ _ _ Hw HIN).
  destruct (table_within_at table lo hi _ _ _ Hw HTI).
  destruct (table_within_at table lo hi _ _ _ Hw HTN).
  apply Hb; assumption.
Qed.

Lemma parameters_in_range (soc t : float) :
  0 <= soc -> soc <= 1 -> lit (-20.0) <= t -> t < lit 2.0 ->
  exists p,
    parameters_at soc t = Ok p /\
    lit 3.5 <= Em p /\ Em p <= lit 4.2 /\
    lit 0.014168 <= R0 p /\ R0 p <= lit 0.67 /\
    lit 0.003253 <= R1 p /\ R1 p <= lit 2 /\
    lit 0.262732 <= C1 p /\ C1 p <= lit 50759.86.
Proof.
  intros Hs0 Hs1 Ht0 Ht1.
  destruct (SOC_lookup_inside soc Hs0 Hs1) as (c & i & HS & _ & Hi & Hu0 & Hu1).
  destruct (T_lookup_inside t Ht0 Ht1)
    as (ti & last & next & Hti & _ & _ & Hl & Hn & HT).
  destruct (fraction_bounds t last next Hl Hn) as [Hf0 Hf1].
  set (x := (t - last) / (next - last)) in *. clearbody x.
  assert (Ex : int_to_float ti + x - int_to_float ti = x) by ring.
  assert (Hw0 : 0 <= int_to_float ti + x - int_to_float ti)
    by (rewrite Ex; exact Hf0).
  assert (Hw1 : int_to_float ti + x - int_to_float ti <= 1)
    by (rewrite Ex; apply Qclt_le_weak; exact Hf1).
  apply Qclt_le_weak in Hu1.
  destruct calibration_tables_dims as (DEm & DR0 & DR1 & DC1).
  destruct calibration_tables_within as (WEm & WR0 & WR1 & WC1).
  destruct (interpolate_within battery_model_Em _ _ (int_to_float ti + x) ti
              c i DEm WEm Hti Hi Hu0 Hu1 Hw0 Hw1) as (e & He & Be1 & Be2).
  destruct (interpolate_within battery_model_R0 _ _ (int_to_float ti + x) ti
              c i DR0 WR0 Hti Hi Hu0 Hu1 Hw0 Hw1) as (r0 & Hr0 & B01 & B02).
  destruct (interpolate_within battery_model_R1 _ _ (int_to_float ti + x) ti
              c i DR1 WR1 Hti Hi Hu0 Hu1 Hw0 Hw1) as (r1 & Hr1 & B11 & B12).
  destruct (interpolate_within battery_model_C1 _ _ (int_to_float ti + x) ti
              c i DC1 WC1 Hti Hi Hu0 Hu1 Hw0 Hw1) as (c1 & Hc1 & Bc1 & Bc2).
  exists {| Em := e; R0 := r0; R1 := r1; C1 := c1 |}.
  split.
  - unfold parameters_at. rewrite HS, HT. cbn [bind outcome_Monad].
    unfold interpolate_all. rewrite He, Hr0, Hr1, Hc1. reflexivity.
  - cbn [Em R0 R1 C1]. repeat split; assumption.
Qed.

(** ** Where the resolver has a value *)

Lemma get_parameters_cast_fault (b : battery_model) :
  ~ castable (SOC b * int_to_float (battery_model_table_SOCs - 1)) ->
  battery_model_get_parameters b = UB CastRange.
Proof.
  intros Hn. rewrite get_parameters_lift. unfold parameters_at, SOC_lookup.
  cbv zeta. unfold float_to_int. cbv zeta.
  destruct ((INT_MIN <=? truncate (SOC b * int_to_float
                                     (battery_model_table_SOCs - 1)))%Z &&
            (truncate (SOC b * int_to_float (battery_model_table_SOCs - 1))
               <=? INT_MAX)%Z) eqn:E; [|reflexivity].
  exfalso. apply Hn. apply andb_true_iff in E as [Hlo Hhi].
  apply Z.leb_le in Hlo. apply Z.leb_le in Hhi. split; assumption.
Qed.

Lemma fault_propagates (b : battery_model) (f : fault) (amps dt : float) :
  battery_model_get_parameters b = UB f ->
  battery_model_voltage amps b = UB f /\
  battery_model_electrical amps dt b = UB f /\
  main_step amps b = UB f.
Proof.
  intros H.
  assert (Hv : battery_model_voltage amps b = UB f)
    by (unfold battery_model_voltage; cbn [bind Sim_Monad]; rewrite H;
        reflexivity).
  split; [exact Hv|]. split.
  - unfold battery_model_electrical; cbn [bind Sim_Monad]; rewrite H.
    reflexivity.
  - unfold main_step. cbn [bind Sim_Monad]. rewrite Hv. reflexivity.
Qed.

Lemma voltage_Ok (b b0 : battery_model) (amps : float)
    (p : battery_model_parameters) :
  battery_model_get_parameters b = Ok (p, b0) ->
  battery_model_voltage amps b = Ok (Em p - C1Q b / C1 p - R0 p * amps, b).
Proof.
  intros H. destruct (get_parameters_Ok b b0 p H) as [_ ->].
  unfold battery_model_voltage; simpl. rewrite H. reflexivity.
Qed.

Lemma get_parameters_in_range (b : battery_model) :
  0 <= SOC b -> SOC b <= 1 -> lit (-20.0) <= cellT b -> cellT b < lit 2.0 ->
  exists p,
    battery_model_get_parameters b = Ok (p, b) /\
    lit 3.5 <= Em p /\ Em p <= lit 4.2 /\
    lit 0.014168 <= R0 p /\ R0 p <= lit 0.67 /\
    lit 0.003253 <= R1 p /\ R1 p <= lit 2 /\
    lit 0.262732 <= C1 p /\ C1 p <= lit 50759.86.
Proof.
  intros Hs0 Hs1 Ht0 Ht1.
  destruct (parameters_in_range (SOC b) (cellT b) Hs0 Hs1 Ht0 Ht1)
    as (p & Hp & Hb).
  exists p. split; [apply parameters_at_Ok; exact Hp | exact Hb].
Qed.

Lemma positive_of_bound (lo x : float) : 0 < lo -> lo <= x -> 0 < x.
Proof. intros H0 H1. eapply Qclt_le_trans; eassumption. Qed.

(** ** Heat and voltage *)

Lemma heat_nonneg_any_current (r0 r1 v amps dt : float) :
  0 <= r0 -> 0 < r1 -> 0 <= dt ->
  0 <= (r0 * amps * amps + v * (v / r1)) * dt.
Proof.
  intros H0 H1 Hdt. qc_to_q.
  assert (Hi : (0 < / r1)%Q) by (apply Qinv_lt_0_compat; assumption).
  set (i := (/ r1)%Q) in *. clearbody i.
  assert (0 <= v * v)%Q by nra.
  assert (0 <= amps * amps)%Q by nra.
  assert (0 <= v * (v * i))%Q by nra.
  assert (0 <= r0 * amps * amps)%Q by nra.
  nra.
Qed.

Lemma electrical_in_range (b : battery_model) (amps dt : float) :
  0 <= SOC b -> SOC b <= 1 -> lit (-20.0) <= cellT b -> cellT b < lit 2.0 ->
  0 <= dt ->
  exists heat p,
    battery_model_get_parameters b = Ok (p, b) /\
    battery_model_electrical amps dt b =
    Ok (heat, {| capacityAs := capacityAs b;
                 SOC := SOC b - amps * dt / capacityAs b;
                 C1Q := C1Q b + (amps - C1Q b / C1 p / R1 p) * dt;
                 cellT := cellT b |}) /\
    0 <= heat.
Proof.
  intros Hs0 Hs1 Ht0 Ht1 Hdt.
  destruct (get_parameters_in_range b Hs0 Hs1 Ht0 Ht1)
    as (p & Hp & _ & _ & HR0 & _ & HR1 & _).
  eexists. exists p. split; [exact Hp|].
  split; [exact (electrical_Ok b b amps dt p Hp)|].
  apply heat_nonneg_any_current.
  - apply Qclt_le_weak. apply (positive_of_bound (lit 0.014168));
      [vm_compute; reflexivity | exact HR0].
  - apply (positive_of_bound (lit 0.003253));
      [vm_compute; reflexivity | exact HR1].
  - exact Hdt.
Qed.

(** ** The thermal step as a relaxation towards ambient *)

Lemma thermal_Ok
    (heating_joules specific_heat mass ambientT Rvalue area dt : float)
    (b : battery_model) :
  battery_model_thermal heating_joules specific_heat mass
                        ambientT Rvalue area dt b =
  Ok (tt, {| capacityAs := capacityAs b; SOC := SOC b; C1Q := C1Q b;
             cellT := ambientT
               + thermal_factor specific_heat mass Rvalue area dt
                 * (cellT b - ambientT)
               + heating_joules / (specific_heat * mass) |}).
Proof.
  unfold battery_model_thermal; simpl. unfold modify, set_cellT.
  cbn [capacityAs SOC C1Q cellT].
  assert (E : cellT b
              + (heating_joules - (cellT b - ambientT) * area / Rvalue * dt)
                / (specific_heat * mass) =
              ambientT
              + thermal_factor specific_heat mass Rvalue area dt
                * (cellT b - ambientT)
              + heating_joules / (specific_heat * mass)).
  { unfold thermal_factor, Qcdiv. rewrite !Qcinv_mult_distr. ring. }
  rewrite E. reflexivity.
Qed.


Lemma heated_relaxation_above_ambient (k d h c ambientT : float) :
  0 <= k -> 0 <= d -> 0 <= h -> 0 < c ->
  ambientT <= ambientT + k * d + h / c.
Proof.
  intros Hk Hd Hh Hc.
  assert (Hi : 0 <= h / c) by (apply Qcdiv_nonneg; assumption).
  set (x := h / c) in *. clearbody x.
  qc_to_q. nra.
Qed.


(** ** The polarisation under a constant current *)


(** ** Statements about the interpolation *)

(** X1: at a grid point (both coordinates equal to their indices, the
    temperature index below the last row) the interpolation returns the
    stored table entry. *)
Theorem interpolation_at_grid_point (table : battery_model_table)
    (T_index SOC_index : Z) :
  table_dims_ok table = true ->
  (0 <= T_index <= battery_model_table_temps - 2)%Z ->
  (0 <= SOC_index <= battery_model_table_SOCs - 1)%Z ->
  exists v,
    table_at table T_index SOC_index = Ok v /\
    battery_model_interpolate table (int_to_float T_index) T_index
                              (int_to_float SOC_index) SOC_index = Ok v.
Proof.
  intros Hd HT HS.
  destruct (table_at_inside table Hd T_index SOC_index) as [v Hv];
    [dims|dims|].
  exists v. split; [exact Hv|].
  rewrite (interpolate_grid table Hd T_index SOC_index HT HS). exact Hv.
Qed.

Lemma interpolation_at_grid_point_witness :
  exists v,
    table_at battery_model_C1 2 10 = Ok v /\
    battery_model_interpolate battery_model_C1 (int_to_float 2) 2
                              (int_to_float 10) 10 = Ok v.
Proof.
  apply (interpolation_at_grid_point battery_model_C1 2 10);
    [reflexivity | dims | dims].
Defined.

(** X2: with both fractional parts between 0 and 1 (and the temperature
    index below the last row) the interpolation reads the four surrounding
    entries inside the table and returns a value between the smallest and
    the largest of them. *)
Theorem interpolation_stays_between_neighbours (table : battery_model_table)
    (T_number : float) (T_index : Z) (SOC_number : float) (SOC_index : Z) :
  table_dims_ok table = true ->
  (0 <= T_index <= battery_model_table_temps - 2)%Z ->
  (0 <= SOC_index <= battery_model_table_SOCs - 1)%Z ->
  0 <= SOC_number - int_to_float SOC_index ->
  SOC_number - int_to_float SOC_index <= 1 ->
  0 <= T_number - int_to_float T_index ->
  T_number - int_to_float T_index <= 1 ->
  exists II IN TI TN v,
    table_at table T_index SOC_index = Ok II /\
    table_at table T_index (SOC_next_of SOC_index) = Ok IN /\
    table_at table (T_index + 1) SOC_index = Ok TI /\
    table_at table (T_index + 1) (SOC_next_of SOC_index) = Ok TN /\
    battery_model_interpolate table T_number T_index SOC_number SOC_index =
      Ok v /\
    forall lo hi : float,
      lo <= II -> II <= hi -> lo <= IN -> IN <= hi ->
      lo <= TI -> TI <= hi -> lo <= TN -> TN <= hi ->
      lo <= v /\ v <= hi.
Proof.
  intros Hd. exact (interpolate_between table Hd T_number T_index
                      SOC_number SOC_index).
Qed.

Lemma interpolation_stays_between_neighbours_witness :
  exists v,
    battery_model_interpolate battery_model_Em (lit 0.5) 0 (lit 5.5) 5 =
      Ok v /\
    lit 3.8 <= v /\ v <= lit 3.870755.
Proof.
  destruct (interpolation_stays_between_neighbours battery_model_Em
              (lit 0.5) 0 (lit 5.5) 5)
    as (II & IN & TI & TN & v & HII & HIN & HTI & HTN & Hv & Hb);
    [reflexivity | dims | dims
    | vm_compute; discriminate | vm_compute; discriminate
    | vm_compute; discriminate | vm_compute; discriminate |].
  exists v. split; [exact Hv|].
  vm_compute in HII, HIN, HTI, HTN.
  inversion HII; inversion HIN; inversion HTI; inversion HTN; subst.
  apply Hb; vm_compute; discriminate.
Defined.

(** ** Statements about the resolver *)

(** X3: for a temperature from the first bucket up to, but not including,
    the last one, the scan stops at the bucket [ti] with
    [bucket ti <= t < bucket (ti+1)], and the temperature coordinate is
    [ti] plus a fraction in [0, 1). *)
Theorem temperature_coordinate_inside_range (t : float) :
  lit (-20.0) <= t -> t < lit 2.0 ->
  exists (ti : Z) (tn last next : float),
    T_lookup t = Ok (tn, ti) /\
    (0 <= ti <= battery_model_table_temps - 2)%Z /\
    array_at battery_model_table_temps battery_model_temperatures ti
      = Ok last /\
    array_at battery_model_table_temps battery_model_temperatures (ti + 1)
      = Ok next /\
    last <= t /\ t < next /\
    0 <= tn - int_to_float ti /\ tn - int_to_float ti < 1.
Proof.
  intros Hlo Hhi.
  destruct (T_lookup_inside t Hlo Hhi)
    as (ti & last & next & Hti & Hl & Hn & Hle & Hlt & HT).
  destruct (fraction_bounds t last next Hle Hlt) as [Hf0 Hf1].
  exists ti, (int_to_float ti + (t - last) / (next - last)), last, next.
  repeat (split; [assumption|]).
  replace (int_to_float ti + (t - last) / (next - last) - int_to_float ti)
    with ((t - last) / (next - last)) by ring.
  split; assumption.
Qed.

Lemma temperature_coordinate_inside_range_witness :
  exists (ti : Z) (tn last next : float),
    T_lookup (lit (-7.0)) = Ok (tn, ti) /\
    (0 <= ti <= battery_model_table_temps - 2)%Z /\
    array_at battery_model_table_temps battery_model_temperatures ti
      = Ok last /\
    array_at battery_model_table_temps battery_model_temperatures (ti + 1)
      = Ok next /\
    last <= lit (-7.0) /\ lit (-7.0) < next /\
    0 <= tn - int_to_float ti /\ tn - int_to_float ti < 1.
Proof.
  apply (temperature_coordinate_inside_range (lit (-7.0)));
    [vm_compute; discriminate | vm_compute; reflexivity].
Defined.

(** X4: for a state of charge in [0, 1] and a temperature in [-20, 2) the
    resolver has a value, and every parameter lies within the range of its
    calibration table: the voltage in [3.5, 4.2], the resistances and the
    capacitance positive. *)
Theorem calibrated_range_parameter_bounds (b : battery_model) :
  0 <= SOC b -> SOC b <= 1 -> lit (-20.0) <= cellT b -> cellT b < lit 2.0 ->
  exists p,
    battery_model_get_parameters b = Ok (p, b) /\
    lit 3.5 <= Em p /\ Em p <= lit 4.2 /\
    lit 0.014168 <= R0 p /\ R0 p <= lit 0.67 /\
    lit 0.003253 <= R1 p /\ R1 p <= lit 2 /\
    lit 0.262732 <= C1 p /\ C1 p <= lit 50759.86.
Proof. exact (get_parameters_in_range b). Qed.

Lemma typical_battery_in_range :
  0 <= SOC typical_battery /\ SOC typical_battery <= 1 /\
  lit (-20.0) <= cellT typical_battery /\ cellT typical_battery < lit 2.0.
Proof.
  repeat split; vm_compute; try discriminate; reflexivity.
Qed.

Lemma calibrated_range_parameter_bounds_witness :
  exists p,
    battery_model_get_parameters typical_battery = Ok (p, typical_battery) /\
    lit 3.5 <= Em p /\ Em p <= lit 4.2 /\
    lit 0.014168 <= R0 p /\ R0 p <= lit 0.67 /\
    lit 0.003253 <= R1 p /\ R1 p <= lit 2 /\
    lit 0.262732 <= C1 p /\ C1 p <= lit 50759.86.
Proof.
  destruct typical_battery_in_range as (H1 & H2 & H3 & H4).
  exact (calibrated_range_parameter_bounds typical_battery H1 H2 H3 H4).
Defined.

(** X5: as long as the cast of the state-of-charge coordinate is defined,
    the resolver has a value exactly for the temperatures below the last
    bucket (+2 deg C). *)
Theorem resolver_defined_below_last_bucket (b : battery_model) :
  castable (SOC b * int_to_float (battery_model_table_SOCs - 1)) ->
  ((exists p, battery_model_get_parameters b = Ok (p, b)) <->
   cellT b < lit 2.0).
Proof.
  intros Hc. split.
  - intros [p Hp].
    destruct (Qclt_le_dec (cellT b) (lit 2.0)) as [H|H]; [exact H|].
    rewrite (get_parameters_above_range b Hc H) in Hp. discriminate.
  - apply get_parameters_defined. exact Hc.
Qed.

Lemma resolver_defined_below_last_bucket_witness :
  (exists p, battery_model_get_parameters typical_battery =
             Ok (p, typical_battery)) <->
  cellT typical_battery < lit 2.0.
Proof.
  apply (resolver_defined_below_last_bucket typical_battery).
  vm_compute. split; discriminate.
Defined.

(** X6: from +2 deg C on, the table read past the last row makes the
    resolver fail, and with it the voltage estimate, the electrical step
    and the step of the demonstration loop. *)
Theorem no_result_from_last_bucket_on (b : battery_model) (amps dt : float) :
  castable (SOC b * int_to_float (battery_model_table_SOCs - 1)) ->
  lit 2.0 <= cellT b ->
  battery_model_get_parameters b = UB OutOfBounds /\
  battery_model_voltage amps b = UB OutOfBounds /\
  battery_model_electrical amps dt b = UB OutOfBounds /\
  main_step amps b = UB OutOfBounds.
Proof.
  intros Hc Ht.
  pose proof (get_parameters_above_range b Hc Ht) as H.
  split; [exact H|]. exact (fault_propagates b OutOfBounds amps dt H).
Qed.

Lemma no_result_from_last_bucket_on_witness :
  battery_model_get_parameters warm_battery = UB OutOfBounds /\
  battery_model_voltage (lit 1.8) warm_battery = UB OutOfBounds /\
  battery_model_electrical (lit 1.8) (lit 12) warm_battery
    = UB OutOfBounds /\
  main_step (lit 1.8) warm_battery = UB OutOfBounds.
Proof.
  apply (no_result_from_last_bucket_on warm_battery (lit 1.8) (lit 12)).
  - vm_compute. split; discriminate.
  - vm_compute. discriminate.
Defined.

(** X7: a state of charge of 214748364.8 or more puts the coordinate at
    [2^31] or above, one of -214748390.4 or less puts it at [-2^31 - 256]
    or below (the two binary32 values next to the range of [int], so that
    rounding the product does not bring it back inside): the cast is
    undefined, and the resolver, the voltage estimate, the electrical step
    and the step of the demonstration loop have no value. *)
Theorem no_result_beyond_int_range (b : battery_model) (amps dt : float) :
  lit 214748364.8 <= SOC b \/ SOC b <= lit (-214748390.4) ->
  battery_model_get_parameters b = UB CastRange /\
  battery_model_voltage amps b = UB CastRange /\
  battery_model_electrical amps dt b = UB CastRange /\
  main_step amps b = UB CastRange.
Proof.
  intros Hsoc.
  assert (H : battery_model_get_parameters b = UB CastRange).
  { apply get_parameters_cast_fault. intros [Hlo Hhi].
    pose proof (this_coordinate (SOC b)) as Ec.
    set (c := SOC b * int_to_float (battery_model_table_SOCs - 1)) in *.
    clearbody c. unfold INT_MIN, INT_MAX in *.
    destruct Hsoc as [Hs|Hs]; unfold Qcle in Hs; simpl in Hs.
    - assert (Ht : (2147483648 <= truncate c)%Z).
      { apply truncate_ge; [lia|].
        change (inject_Z 2147483648) with 2147483648%Q. lra. }
      lia.
    - assert (Ht : (truncate c <= -2147483649)%Z).
      { apply truncate_le_neg; [lia|].
        change (inject_Z (-2147483649)) with (-2147483649)%Q. lra. }
      lia. }
  split; [exact H|]. exact (fault_propagates b CastRange amps dt H).
Qed.

Lemma no_result_beyond_int_range_witness :
  battery_model_get_parameters absurd_battery = UB CastRange /\
  battery_model_voltage (lit 1.8) absurd_battery = UB CastRange /\
  battery_model_electrical (lit 1.8) (lit 12) absurd_battery
    = UB CastRange /\
  main_step (lit 1.8) absurd_battery = UB CastRange.
Proof.
  apply (no_result_beyond_int_range absurd_battery (lit 1.8) (lit 12)).
  left. vm_compute. discriminate.
Defined.

(** ** Statements about the electrical step and the voltage *)

(** X8: inside the calibrated range (state of charge in [0, 1], temperature
    in [-20, 2)) the electrical step has a value for every draw current,
    charging included, and every positive time step, and the heat it
    returns is not negative. *)
Theorem heat_nonneg_for_any_current (b : battery_model) (amps dt : float) :
  0 <= SOC b -> SOC b <= 1 -> lit (-20.0) <= cellT b -> cellT b < lit 2.0 ->
  0 < dt ->
  exists heat b',
    battery_model_electrical amps dt b = Ok (heat, b') /\ 0 <= heat.
Proof.
  intros Hs0 Hs1 Ht0 Ht1 Hdt. apply Qclt_le_weak in Hdt.
  destruct (electrical_in_range b amps dt Hs0 Hs1 Ht0 Ht1 Hdt)
    as (heat & p & _ & He & Hh).
  exists heat. eexists. split; [exact He | exact Hh].
Qed.

Lemma heat_nonneg_for_any_current_witness :
  exists heat b',
    battery_model_electrical (lit (-1.8)) (lit 12) typical_battery =
      Ok (heat, b') /\ 0 <= heat.
Proof.
  destruct typical_battery_in_range as (H1 & H2 & H3 & H4).
  apply (heat_nonneg_for_any_current typical_battery (lit (-1.8)) (lit 12)
           H1 H2 H3 H4).
  vm_compute. reflexivity.
Defined.









(** ** Statements about the thermal step *)





(** ** Statements about the resolver at the grid points, the driver and
       a new battery *)

Lemma grid_cases (j k : Z) :
  (0 <= j <= battery_model_table_temps - 2)%Z ->
  (0 <= k <= battery_model_table_SOCs - 1)%Z ->
  In (j, k)
     (list_prod [0; 1; 2]%Z [0; 1; 2; 3; 4; 5; 6; 7; 8; 9; 10]%Z).
Proof.
  intros Hj Hk. apply in_prod; simpl; dims.
Qed.

Lemma parameters_at_grid (j k : Z) (t : float) :
  (0 <= j <= battery_model_table_temps - 2)%Z ->
  (0 <= k <= battery_model_table_SOCs - 1)%Z ->
  array_at battery_model_table_temps battery_model_temperatures j = Ok t ->
  exists p,
    grid_parameters j k = Ok p /\
    parameters_at
      (int_to_float k / int_to_float (battery_model_table_SOCs - 1)) t = Ok p.
Proof.
  intros Hj Hk Ht.
  pose proof (grid_cases j k Hj Hk) as Hin. simpl in Hin.
  repeat (destruct Hin as [Hin|Hin];
          [injection Hin as <- <-;
           vm_compute in Ht; injection Ht as <-;
           eexists; split; [vm_compute; reflexivity | eval_with params_ext]
          |]).
  contradiction.
Qed.

(** X16: at a grid point the resolver returns the table entries.  For a
    battery whose temperature is the bucket temperature [j], other than the
    last, and whose state of charge is [k/10] with [0 <= k <= 10], the four
    resolved parameters are the entries of the four tables at row [j],
    column [k], and the battery is unchanged. *)
Theorem resolver_returns_table_entries (b : battery_model) (j k : Z) :
  (0 <= j <= battery_model_table_temps - 2)%Z ->
  (0 <= k <= battery_model_table_SOCs - 1)%Z ->
  array_at battery_model_table_temps battery_model_temperatures j
    = Ok (cellT b) ->
  SOC b = int_to_float k / int_to_float (battery_model_table_SOCs - 1) ->
  exists p,
    grid_parameters j k = Ok p /\
    battery_model_get_parameters b = Ok (p, b).
Proof.
  intros Hj Hk Ht Hs.
  destruct (parameters_at_grid j k (cellT b) Hj Hk Ht) as (p & Hg & Hp).
  exists p. split; [exact Hg|].
  apply parameters_at_Ok. rewrite Hs. exact Hp.
Qed.

Lemma resolver_returns_table_entries_witness :
  exists p,
    grid_parameters 1 3 = Ok p /\
    battery_model_get_parameters grid_battery = Ok (p, grid_battery).
Proof.
  apply (resolver_returns_table_entries grid_battery 1 3).
  - dims.
  - dims.
  - vm_compute. reflexivity.
  - apply Qc_decomp. vm_compute. reflexivity.
Defined.

Lemma main_thermal_constants :
  0 <= thermal_factor (lit 0.9) (lit 150.0) (lit 0.1) (lit 0.1 * lit 0.1)
                      (int_to_float main_dt) /\
  0 < lit 0.9 * lit 150.0 /\ 0 <= int_to_float main_dt /\
  int_to_float main_S = 1.
Proof.
  split; [|split; [|split]]; try (vm_compute; discriminate).
  - vm_compute. reflexivity.
  - apply Qc_decomp. vm_compute. reflexivity.
Qed.

(** X17: one pass of the demonstration loop, in the calibrated range.  For
    every battery with state of charge in [[0, 1]] and temperature in
    [[-20, 2)], and every draw current, the loop body of [main] is defined;
    the voltage it reports is [Em - C1Q/C1 - R0*amps] at the battery before
    the step; it lowers the state of charge by [amps*12/capacityAs], keeps
    the capacity, and leaves the cell no colder than the ambient -20. *)
Theorem main_step_in_calibrated_range (b : battery_model) (amps : float) :
  0 <= SOC b -> SOC b <= 1 -> lit (-20.0) <= cellT b -> cellT b < lit 2.0 ->
  exists (p : battery_model_parameters) (volts : float) (b' : battery_model),
    battery_model_get_parameters b = Ok (p, b) /\
    main_step amps b = Ok (volts, b') /\
    volts = Em p - C1Q b / C1 p - R0 p * amps /\
    capacityAs b' = capacityAs b /\
    SOC b' = SOC b - amps * lit 12 / capacityAs b /\
    main_ambientT <= cellT b'.
Proof.
  intros Hs0 Hs1 Ht0 Ht1.
  destruct main_thermal_constants as (Hk & Hc & Hdt & HS).
  destruct (electrical_in_range b amps (int_to_float main_dt)
              Hs0 Hs1 Ht0 Ht1 Hdt) as (heat & p & Hp & Hel & Hheat).
  pose proof (voltage_Ok b b amps p Hp) as Hv.
  eexists p, _, _. split; [exact Hp|]. split; [|split; [|split; [|split]]].
  - unfold main_step. cbn [bind Sim_Monad]. rewrite Hv, Hel, thermal_Ok.
    reflexivity.
  - rewrite HS. ring.
  - reflexivity.
  - cbn [SOC]. apply f_equal. apply f_equal2; [|reflexivity].
    apply f_equal. apply Qc_decomp. reflexivity.
  - cbn [cellT]. rewrite HS.
    apply heated_relaxation_above_ambient; try assumption.
    + unfold Qcminus. rewrite <- (Qcplus_opp_r main_ambientT).
      apply Qcplus_le_compat; [exact Ht0 | apply Qcle_refl].
    + rewrite Qcmult_1_l. exact Hheat.
Qed.

Lemma main_step_in_calibrated_range_witness :
  exists (p : battery_model_parameters) (volts : float) (b' : battery_model),
    battery_model_get_parameters typical_battery = Ok (p, typical_battery) /\
    main_step (lit 1.8) typical_battery = Ok (volts, b') /\
    volts = Em p - C1Q typical_battery / C1 p - R0 p * lit 1.8 /\
    capacityAs b' = capacityAs typical_battery /\
    SOC b' = SOC typical_battery - lit 1.8 * lit 12
                                   / capacityAs typical_battery /\
    main_ambientT <= cellT b'.
Proof.
  destruct typical_battery_in_range as (H1 & H2 & H3 & H4).
  exact (main_step_in_calibrated_range typical_battery (lit 1.8)
           H1 H2 H3 H4).
Defined.

(** X18: the first reading of a new battery.  For every state of charge in
    [[0, 1]] and temperature in [[-20, 2)], constructing a battery (over any
    previous contents) and asking for its voltage under a draw of [amps]
    gives [Em - R0*amps] at the parameters of that state of charge and
    temperature: the capacitor starts empty and contributes nothing, so the
    open-circuit voltage of a new battery is [Em]. *)
Theorem new_battery_voltage
    (capacityAh soc tempC amps : float) (b0 : battery_model) :
  0 <= soc -> soc <= 1 -> lit (-20.0) <= tempC -> tempC < lit 2.0 ->
  exists p : battery_model_parameters,
    parameters_at soc tempC = Ok p /\
    (battery_model_init capacityAh soc tempC ;;;
     battery_model_voltage amps)%monad b0 =
    Ok (Em p - R0 p * amps,
        {| capacityAs := capacityAh * lit 3600.0; SOC := soc;
           C1Q := 0; cellT := tempC |}).
Proof.
  intros Hs0 Hs1 Ht0 Ht1.
  destruct (parameters_in_range soc tempC Hs0 Hs1 Ht0 Ht1) as (p & Hp & _).
  exists p. split; [exact Hp|].
  set (b1 := {| capacityAs := capacityAh * lit 3600.0; SOC := soc;
                C1Q := lit 0.0; cellT := tempC |}).
  assert (Hinit : battery_model_init capacityAh soc tempC b0 = Ok (tt, b1))
    by reflexivity.
  assert (Hres : battery_model_get_parameters b1 = Ok (p, b1))
    by (apply parameters_at_Ok; exact Hp).
  cbn [bind Sim_Monad]. rewrite Hinit.
  rewrite (voltage_Ok b1 b1 amps p Hres).
  assert (Hz : lit 0.0 = 0) by (apply Qc_decomp; reflexivity).
  unfold b1. cbn [C1Q]. rewrite Hz.
  apply f_equal. apply f_equal2; [unfold Qcdiv; ring | reflexivity].
Qed.

Lemma new_battery_voltage_witness :
  exists p : battery_model_parameters,
    parameters_at (lit 1.0) (lit (-20.0)) = Ok p /\
    (battery_model_init (lit 1.8) (lit 1.0) (lit (-20.0)) ;;;
     battery_model_voltage (lit 1.8))%monad empty_battery =
    Ok (Em p - R0 p * lit 1.8,
        {| capacityAs := lit 1.8 * lit 3600.0; SOC := lit 1.0;
           C1Q := 0; cellT := lit (-20.0) |}).
Proof.
  apply (new_battery_voltage (lit 1.8) (lit 1.0) (lit (-20.0)) (lit 1.8)
           empty_battery);
    vm_compute; try discriminate; reflexivity.
Defined.
